(** * Review-team drivers: the CI batch script and the Flask service

    A shallow embedding of [scripts/handle_changed_files.py] (the batch
    driver that reviews the files changed between two commits) and of
    [source/app.py] (the web service in front of the same kind of team),
    followed by the properties of both that the specification states.

    Conventions.
    - A Python [str] or [bytes] value is a [string] (a sequence of 8-bit
      characters).
    - [exn] stands for an instance of a subclass of Python's [Exception];
      only these are caught by [except Exception].  Signals deriving from
      [BaseException] alone (KeyboardInterrupt, SystemExit) are not part
      of the model.
    - The language model behind [Team.run], the uuid source and the faults
      of the operating system are oracles passed in as records, so every
      theorem holds for all of their behaviours. *)

From Stdlib Require Import ZArith NArith Ascii String List Lia.
From stdpp Require Import gmap strings.

Open Scope Z_scope.

(** ** Python values shared by both programs *)

Module Py.

(** An exception object: its class name and [str(e)]. *)
Inductive exn : Type := Exn (cls : string) (msg : string).

Definition str (e : exn) : string := match e with Exn _ m => m end.

(** ["\n"] *)
Definition nl : string := String (ascii_of_nat 10) EmptyString.

(** [s.startswith(p)] *)
Definition startswith (p s : string) : bool := String.prefix p s.

(** [s.endswith(x)] *)
Definition endswith (x s : string) : bool :=
  let n := String.length s in
  let m := String.length x in
  if (m <=? n)%nat then String.eqb (String.substring (n - m) m s) x else false.

(** [s[i:]] for [0 <= i] *)
Fixpoint drop_str (i : nat) (s : string) : string :=
  match i, s with
  | O, _ => s
  | S _, EmptyString => EmptyString
  | S i', String _ s' => drop_str i' s'
  end.

(** [s[:i]] for [0 <= i] *)
Fixpoint take_str (i : nat) (s : string) : string :=
  match i, s with
  | O, _ => EmptyString
  | S _, EmptyString => EmptyString
  | S i', String a s' => String a (take_str i' s')
  end.

(** [s.rfind(c)]: the highest index of [c] in [s], or [-1].  The scan
    runs left to right and remembers the last hit. *)
Fixpoint rfind_from (c : ascii) (s : string) (i found : Z) : Z :=
  match s with
  | EmptyString => found
  | String a s' => rfind_from c s' (i + 1) (if Ascii.eqb a c then i else found)
  end.

Definition rfind (c : ascii) (s : string) : Z := rfind_from c s 0 (-1).

(** [s[i:i+1]] *)
Definition char_at (i : nat) (s : string) : string := take_str 1 (drop_str i s).

End Py.

(** ** [os.path] on a POSIX host (CPython's [posixpath] and [genericpath]) *)

Module OsPath.
Import Py.

Definition sep : ascii := "/"%char.
Definition extsep : ascii := "."%char.

(** [posixpath.basename]: [i = p.rfind('/') + 1; return p[i:]] *)
Definition basename (p : string) : string :=
  let i := rfind sep p + 1 in
  drop_str (Z.to_nat i) p.

(** The [while filenameIndex < dotIndex] loop of [genericpath._splitext]:
    [true] as soon as a character before the last dot is not a dot. *)
Fixpoint has_stem (fuel : nat) (p : string) (filenameIndex : nat) : bool :=
  match fuel with
  | O => false
  | S fuel' =>
      if negb (String.eqb (char_at filenameIndex p) (String extsep EmptyString))
      then true
      else has_stem fuel' p (S filenameIndex)
  end.

(** [posixpath.splitext]: split at the last dot that follows the last
    slash, unless only dots precede it in the file name. *)
Definition splitext (p : string) : string * string :=
  let sepIndex := rfind sep p in
  let dotIndex := rfind extsep p in
  if sepIndex <? dotIndex then
    let filenameIndex := sepIndex + 1 in
    if has_stem (Z.to_nat (dotIndex - filenameIndex)) p (Z.to_nat filenameIndex)
    then (take_str (Z.to_nat dotIndex) p, drop_str (Z.to_nat dotIndex) p)
    else (p, EmptyString)
  else (p, EmptyString).

(** [posixpath.join(a, b)] *)
Definition join (a b : string) : string :=
  if startswith (String sep EmptyString) b then b
  else if orb (String.eqb a EmptyString) (endswith (String sep EmptyString) a)
       then a +:+ b
       else a +:+ String sep EmptyString +:+ b.

End OsPath.


(** ** The batch driver, [scripts/handle_changed_files.py] *)

Module BatchDriver.
Import Py OsPath.

(** What [team.run(prompt)] returns; the script reads [.content] only. *)
Record TeamRunResponse : Type := { content : string }.

(** The collaborators of the script.
    - [team_run history prompt]: the outcome of [team.run(prompt)] after
      the calls in [history] (earliest first); the model backend is free
      to answer or to raise, differently on every call.
    - [read_fault p]: an error of [open(p, 'r')] or of [read()] other than
      a missing file (permissions, undecodable bytes).
    - [open_w_fault p]: an error of [open(p, 'w')].
    - [write_fault p]: an error of [outfile.write] once [p] is open. *)
Record env : Type := {
  team_run : list string -> string -> exn + TeamRunResponse;
  read_fault : string -> option exn;
  open_w_fault : string -> option exn;
  write_fault : string -> option exn
}.

(** What the script can change: the text files (a path is mapped to the
    text [read()] returns for it), the texts printed so far, one for each
    call of [print], and the prompts handed to the team so far. *)
Record state : Type := {
  files : gmap string string;
  stdout : list string;
  prompts : list string
}.

(** Statements: a state transformer that ends normally with a value or
    with a raised exception.  The state reached is kept in both cases. *)
Definition M (A : Type) : Type := state -> state * (exn + A).

Definition ret {A : Type} (a : A) : M A := fun st => (st, inr a).

Definition raise {A : Type} (e : exn) : M A := fun st => (st, inl e).

Definition bind {A B : Type} (m : M A) (k : A -> M B) : M B :=
  fun st =>
    match m st with
    | (st', inr a) => k a st'
    | (st', inl e) => (st', inl e)
    end.

(** [try: m except Exception as e: h e] *)
Definition try_except {A : Type} (m : M A) (h : exn -> M A) : M A :=
  fun st =>
    match m st with
    | (st', inr a) => (st', inr a)
    | (st', inl e) => h e st'
    end.

Notation "x <- m ;; k" := (bind m (fun x => k))
  (at level 100, m at level 99, right associativity).
Notation "m ;;; k" := (bind m (fun _ => k))
  (at level 100, right associativity).

(** [print(s)] on a console that takes every text; [Console] below has
    the [print] that can raise. *)
Definition print (s : string) : M unit :=
  fun st => ({| files := files st; stdout := stdout st ++ [s]; prompts := prompts st |}, inr tt).

(** [with open(path, 'r', encoding='utf-8') as infile: infile.read()] *)
Definition read_text (E : env) (path : string) : M string :=
  fun st =>
    match read_fault E path with
    | Some e => raise e st
    | None =>
        match files st !! path with
        | Some text => ret text st
        | None =>
            raise (Exn "FileNotFoundError"
                       ("[Errno 2] No such file or directory: '" +:+ path +:+ "'")) st
        end
    end.

(** [open(path, 'w', encoding='utf-8')]: the file is created or truncated. *)
Definition open_w (E : env) (path : string) : M unit :=
  fun st =>
    match open_w_fault E path with
    | Some e => raise e st
    | None =>
        ({| files := <[path := EmptyString]> (files st);
            stdout := stdout st; prompts := prompts st |}, inr tt)
    end.

(** [outfile.write(text)] followed by the close of the [with] block. *)
Definition write (E : env) (path text : string) : M unit :=
  fun st =>
    match write_fault E path with
    | Some e => raise e st
    | None =>
        ({| files := <[path := text]> (files st);
            stdout := stdout st; prompts := prompts st |}, inr tt)
    end.

(** [team.run(prompt)] *)
Definition run (E : env) (prompt : string) : M TeamRunResponse :=
  fun st =>
    ({| files := files st; stdout := stdout st; prompts := prompts st ++ [prompt] |},
     team_run E (prompts st) prompt).

(** [make_prompt(file_contents)]: the f-string, line by line. *)
Definition make_prompt (file_contents : string) : string :=
  nl +:+
  "        Solicit input from other agents regarding the following source code:" +:+ nl +:+
  "    " +:+ nl +:+
  "        [START SOURCE CODE]" +:+ nl +:+
  "        " +:+ file_contents +:+ nl +:+
  "        [END SOURCE CODE]" +:+ nl +:+
  nl +:+
  "        Important: This source code must be provided to all other agents." +:+ nl +:+
  "        ".

(** The condition of the [if] in the loop. *)
Definition accepted (line : string) : bool :=
  startswith "source/" line && (endswith ".py" line || endswith ".js" line).

(** [os.path.join('reports', f'{name}.md')] for the [name] obtained from
    [basename] and [splitext]. *)
Definition output_path_of (line : string) : string :=
  let filename := basename line in
  let '(name, ext) := splitext filename in
  join "reports" (name +:+ ".md").

(** The body of the [try] block for one line. *)
Definition try_body (E : env) (line : string) : M unit :=
  print ("Processing " +:+ line) ;;;
  contents <- read_text E line ;;
  let output_path := output_path_of line in
  let prompt := make_prompt contents in
  response <- run E prompt ;;
  open_w E output_path ;;;
  write E output_path (content response).

(** The [except Exception as e] handler. *)
Definition handler (line : string) (e : exn) : M unit :=
  print ("Error processing " +:+ line +:+ ": (" +:+ str e +:+ ")").

(** One iteration of the [for] loop. *)
Definition iteration (E : env) (line : string) : M unit :=
  if accepted line then try_except (try_body E line) (handler line)
  else ret tt.

(** [for line in lines: ...]: an exception that leaves an iteration ends
    the loop and the script. *)
Fixpoint main_loop (E : env) (lines : list string) : M unit :=
  match lines with
  | [] => ret tt
  | line :: rest => iteration E line ;;; main_loop E rest
  end.


(** A run of the [try] block for [line] in which nothing goes wrong: the
    file is there and readable with text [contents], the team answers [r],
    and the report can be opened and written. *)
Definition succeeds (E : env) (st : state) (line contents : string) (r : TeamRunResponse) : Prop :=
  read_fault E line = None /\
  files st !! line = Some contents /\
  team_run E (prompts st) (make_prompt contents) = inr r /\
  open_w_fault E (output_path_of line) = None /\
  write_fault E (output_path_of line) = None.

End BatchDriver.

(** ** [base64.b64encode] (RFC 4648, standard alphabet, with padding) *)

Module Base64.

Definition alphabet : string :=
  "ABCDEFGHIJKLMNOPQRSTUVWXYZabcdefghijklmnopqrstuvwxyz0123456789+/".

(** The character of a 6-bit group. *)
Definition digit (n : N) : ascii :=
  match String.get (N.to_nat n) alphabet with
  | Some c => c
  | None => "="%char
  end.

(** Three bytes give four characters; a last group of one or two bytes is
    padded with ['=']. *)
Fixpoint b64encode (bs : string) : string :=
  match bs with
  | EmptyString => EmptyString
  | String a EmptyString =>
      let x := N_of_ascii a in
      String (digit (x / 4)) (String (digit ((x mod 4) * 16)) "==")
  | String a (String b EmptyString) =>
      let x := N_of_ascii a in
      let y := N_of_ascii b in
      String (digit (x / 4))
        (String (digit ((x mod 4) * 16 + y / 16))
           (String (digit ((y mod 16) * 4)) "="))
  | String a (String b (String c rest)) =>
      let x := N_of_ascii a in
      let y := N_of_ascii b in
      let z := N_of_ascii c in
      String (digit (x / 4))
        (String (digit ((x mod 4) * 16 + y / 16))
           (String (digit ((y mod 16) * 4 + z / 64))
              (String (digit (z mod 64)) (b64encode rest))))
  end%N.

End Base64.

(** ** The web service, [source/app.py] *)

Module WebApp.
Import Py.

(** The objects met when a stream is iterated: a one-character [str], or
    a run event of the team, which has a [content] attribute. *)
Inductive pyobj : Type :=
  | PyStr (s : string)
  | PyEvent (content : string).

(** What [o.content] raises when [o] is a [str]. *)
Definition attribute_error : exn :=
  Exn "AttributeError" "'str' object has no attribute 'content'".

(** [o.content] *)
Definition getattr_content (o : pyobj) : exn + string :=
  match o with
  | PyEvent c => inr c
  | PyStr _ => inl attribute_error
  end.

(** What [generate] is applied to: a [str], or the iterator returned by
    [team.run(..., stream=True)], which yields its events and may then
    stop with an error of the backend. *)
Inductive iterable : Type :=
  | OfStr (s : string)
  | OfEvents (events : list string) (fault : option exn).

(** The characters of a [str], each as a [str] of length one. *)
Fixpoint chars (s : string) : list pyobj :=
  match s with
  | EmptyString => []
  | String a s' => PyStr (String a EmptyString) :: chars s'
  end.

(** [iter(x)], run to its end: the items and the error that ends the
    iteration, if any. *)
Definition iter (x : iterable) : list pyobj * option exn :=
  match x with
  | OfStr s => (chars s, None)
  | OfEvents events fault => (map PyEvent events, fault)
  end.

(** [for chunk in chunks: yield chunk.content] over the items of [chunks]. *)
Fixpoint generate_items (items : list pyobj) (fault : option exn) : list string * option exn :=
  match items with
  | [] => ([], fault)
  | chunk :: rest =>
      match getattr_content chunk with
      | inl e => ([], Some e)
      | inr c => let '(ys, r) := generate_items rest fault in (c :: ys, r)
      end
  end.

(** [generate(chunks)], consumed to its end: the strings it yields and
    the exception that stops it, if any. *)
Definition generate (chunks : iterable) : list string * option exn :=
  let '(items, fault) := iter chunks in generate_items items fault.

(** A response body: a complete text, or [generate(chunks)] wrapped by
    [stream_with_context], which runs only when the server sends the
    response, after the handler has returned. *)
Inductive Body : Type :=
  | Text (s : string)
  | Stream (chunks : iterable).

Record Response : Type := {
  status : Z;
  headers : gmap string string;
  body : Body
}.

(** [make_response(b)] and [Response(b)]: status 200, no header of note. *)
Definition make_response (b : Body) : Response :=
  {| status := 200; headers := ∅; body := b |}.

(** [response.headers[k] = v] *)
Definition set_header (k v : string) (r : Response) : Response :=
  {| status := status r; headers := <[k := v]> (headers r); body := body r |}.

(** What the client receives from a body. *)
Definition consume (b : Body) : list string * option exn :=
  match b with
  | Text s => ([s], None)
  | Stream chunks => generate chunks
  end.

(** The request as the handler reads it.  [header_session_id] is the
    outcome of [request.headers.get('X-Session-ID')]: [None], a [str], or
    (never observed with Flask inside a request, kept to show what the
    [except] branch reads) an error.  [arg_input] is
    [request.args.get('input')]. *)
Record Request : Type := {
  header_session_id : exn + option string;
  arg_input : option string
}.

(** The team object as far as the handler touches it: the members given
    to it by [create_team] and the [session_id] attribute. *)
Record Team : Type := { members : list string; session_id : option string }.

(** The collaborators of one request: [helpers.create_team(_memory)] and
    [team.run(user_input, stream=True)]. *)
Record backend : Type := {
  create_team : exn + Team;
  team_run : Team -> option string -> exn + iterable
}.

(** The part of the process state [ask_team] changes: how many tokens
    [uuid.uuid4()] has produced. *)
Record world : Type := { minted : nat }.

(** [not v] for [v] that is [None] or a [str]. *)
Definition falsy (v : option string) : bool :=
  match v with
  | None => true
  | Some s => String.eqb s EmptyString
  end.

(** Lines 19 to 23: the session token of the request. *)
Definition resolve_session (uuid4_str : nat -> string) (h : option string) (w : world)
  : string * world :=
  match h with
  | Some s =>
      if falsy h then (uuid4_str (minted w), {| minted := S (minted w) |}) else (s, w)
  | None => (uuid4_str (minted w), {| minted := S (minted w) |})
  end.

(** The [try] block.  Next to its outcome it gives the binding of the
    local [session_id] when the block is left ([None]: not yet bound). *)
Definition try_block (uuid4_str : nat -> string) (B : backend) (req : Request) (w : world)
  : world * option string * (exn + Response) :=
  match header_session_id req with
  | inl e => (w, None, inl e)
  | inr h =>
      let '(sid, w1) := resolve_session uuid4_str h w in
      match create_team B with
      | inl e => (w1, Some sid, inl e)
      | inr team0 =>
          let team := {| members := members team0; session_id := Some sid |} in
          let user_input := arg_input req in
          match team_run B team user_input with
          | inl e => (w1, Some sid, inl e)
          | inr output =>
              let response := make_response (Stream output) in
              (w1, Some sid, inr (set_header "X-Session-ID" sid response))
          end
      end
  end.

(** The apology of the [except] branch. *)
Definition apology (e : exn) : string :=
  "I'm sorry, but something went wrong. (" +:+ str e +:+ ")".

(** The [except Exception as e] branch; reading an unbound local raises. *)
Definition except_block (sid : option string) (e : exn) : exn + Response :=
  let output := apology e in
  let response := make_response (Stream (OfStr output)) in
  match sid with
  | Some s => inr (set_header "X-Session-ID" s response)
  | None =>
      inl (Exn "UnboundLocalError"
               "cannot access local variable 'session_id' where it is not associated with a value")
  end.

(** The [X-Session-ID] header of a response, if it has one. *)
Definition session_header (r : Response) : option string := headers r !! "X-Session-ID".

(** How a call of a handler ends for the framework. *)
Inductive outcome : Type :=
  | Returned (r : Response)
  | Unhandled (e : exn).

(** [ask_team()] *)
Definition ask_team (uuid4_str : nat -> string) (B : backend) (req : Request) (w : world)
  : outcome * world :=
  match try_block uuid4_str B req w with
  | (w', _, inr response) => (Returned response, w')
  | (w', sid, inl e) =>
      match except_block sid e with
      | inr response => (Returned response, w')
      | inl e' => (Unhandled e', w')
      end
  end.

(** [get_image()], for the [IMAGE_PATH] of [helpers]; the files are
    regular files the process may read and remove. *)
Definition get_image (IMAGE_PATH : string) (fs : gmap string string)
  : Response * gmap string string :=
  let src := EmptyString in
  match fs !! IMAGE_PATH with
  | Some image_bytes =>
      let base64_image := Base64.b64encode image_bytes in
      let src := "data:image/png;base64," +:+ base64_image in
      let fs := delete IMAGE_PATH fs in
      (make_response (Text src), fs)
  | None => (make_response (Text src), fs)
  end.

End WebApp.

(** ** Concrete collaborators, used to run the statements below *)
Module Stubs.
Import Py BatchDriver.

Definition no_fault : string -> option exn := fun _ => None.

(** A team that answers every prompt with a report quoting it. *)
Definition quoting_team : env :=
  {| team_run := fun _ prompt => inr {| content := "# Report" +:+ prompt |};
     read_fault := no_fault; open_w_fault := no_fault; write_fault := no_fault |}.

(** A team whose backend is down. *)
Definition failing_team : env :=
  {| team_run := fun _ _ => inl (Exn "RuntimeError" "backend unavailable");
     read_fault := no_fault; open_w_fault := no_fault; write_fault := no_fault |}.

Definition checkout : state :=
  {| files := <["source/app.py" := "print(1)"]>
                (<["source/widget.js" := "let w = 2"]>
                   (<["source/a/util.py" := "A = 1"]>
                      (<["source/b/util.py" := "B = 2"]> ∅)));
     stdout := []; prompts := [] |}.

End Stubs.


Module WebStubs.
Import Py WebApp.

(** A uuid source that never repeats: the n-th token is n+1 letters long. *)
Fixpoint unary (n : nat) : string :=
  match n with
  | O => "u"
  | S n' => String "u"%char (unary n')
  end.

(** A backend whose team streams two chunks. *)
Definition streaming_backend : backend :=
  {| create_team := inr {| members := ["security"; "debugging"; "optimization"]; session_id := None |};
     team_run := fun _ _ => inr (OfEvents ["Hello"; " world"] None) |}.

(** A backend whose [team.run] raises. *)
Definition failing_backend : backend :=
  {| create_team := inr {| members := ["security"; "debugging"; "optimization"]; session_id := None |};
     team_run := fun _ _ => inl (Exn "RuntimeError" "backend unavailable") |}.

Definition anonymous_request : Request :=
  {| header_session_id := inr None; arg_input := Some "hi" |}.

Definition resumed_request : Request :=
  {| header_session_id := inr (Some "abc"); arg_input := Some "hi" |}.

Definition fresh_world : world := {| minted := 0 |}.

Definition image_present : gmap string string := <["static/image.png" := "Man"]> ∅.

End WebStubs.


(** ** Vocabulary for the statements about the batch driver *)

Module BatchSpec.
Import Py BatchDriver.

(** The prompt the team is asked for [line], given the files of the
    checkout: none when the line is filtered out or its file cannot be
    read. *)
Definition asked (E : env) (fs : gmap string string) (line : string) : option string :=
  if accepted line then
    match read_fault E line with
    | Some _ => None
    | None => make_prompt <$> fs !! line
    end
  else None.

(** The texts printed by the first statement of the [try] block. *)
Definition announcement (s : string) : bool := startswith "Processing " s.

(** Collaborators with which [write] fails once the report is open: the
    text of the report cannot be encoded, so nothing reaches the file. *)
Definition unencodable_report : env :=
  {| team_run := fun _ prompt => inr {| content := "# Report" +:+ prompt |};
     read_fault := fun _ => None;
     open_w_fault := fun _ => None;
     write_fault := fun _ =>
       Some (Exn "UnicodeEncodeError" "'utf-8' codec can't encode character: surrogates not allowed") |}.

End BatchSpec.

(** ** A backend whose stream breaks, for the statements about the web
    service *)

Module WebSpec.
Import Py WebApp.

(** The team yields one chunk, then the connection to the model is lost. *)
Definition breaking_backend : backend :=
  {| create_team := inr {| members := ["security"; "debugging"; "optimization"];
                           session_id := None |};
     team_run := fun _ _ =>
       inr (OfEvents ["Hello"] (Some (Exn "ConnectionError" "connection lost"))) |}.

End WebSpec.

(** ** [str.strip] and [str.split], as the loop header applies them to
    the output of [git diff --name-only]

    git quotes the bytes of a path above 127 by default, so the listing
    is ASCII; [isspace] is [str.isspace] for characters below 128. *)

Module PyText.
Import Py.

Definition isspace (a : ascii) : bool :=
  let n := nat_of_ascii a in
  ((9 <=? n)%nat && (n <=? 13)%nat) || ((28 <=? n)%nat && (n <=? 31)%nat) || (n =? 32)%nat.

Definition is_ascii (s : string) : bool :=
  forallb (fun a => (nat_of_ascii a <? 128)%nat) (list_ascii_of_string s).

(** Only whitespace, or nothing at all. *)
Definition blank (s : string) : bool := forallb isspace (list_ascii_of_string s).

(** [s.lstrip()] *)
Fixpoint lstrip (s : string) : string :=
  match s with
  | EmptyString => EmptyString
  | String a s' => if isspace a then lstrip s' else s
  end.

(** [s.rstrip()] *)
Fixpoint rstrip (s : string) : string :=
  match s with
  | EmptyString => EmptyString
  | String a s' =>
      match rstrip s' with
      | EmptyString => if isspace a then EmptyString else String a EmptyString
      | r => String a r
      end
  end.

(** [s.strip()]: whitespace is dropped from the left, then from the right. *)
Definition strip (s : string) : string := rstrip (lstrip s).

(** [s.split(c)] for a separator of one character: the list is never
    empty, and [''.split(c)] is [['']]. *)
Fixpoint split (c : ascii) (s : string) : list string :=
  match s with
  | EmptyString => [EmptyString]
  | String a s' =>
      if Ascii.eqb a c then EmptyString :: split c s'
      else
        match split c s' with
        | h :: t => String a h :: t
        | [] => [String a EmptyString]
        end
  end.

(** [result.stdout.strip().split('\n')] *)
Definition changed_lines (stdout : string) : list string :=
  split (ascii_of_nat 10) (strip stdout).

End PyText.

(** ** Reading base64 back (RFC 4648, section 4), to state that the
    encoder loses nothing *)

Module Base64Decode.
Import Base64.

Fixpoint find_digit (c : ascii) (s : string) (i : N) : option N :=
  match s with
  | EmptyString => None
  | String a s' => if Ascii.eqb a c then Some i else find_digit c s' (i + 1)
  end.

(** The 6-bit group of a character of the alphabet. *)
Definition value (c : ascii) : option N := find_digit c alphabet 0.

Definition pad : ascii := "="%char.

(** Four characters give three bytes; padding may end the text. *)
Fixpoint b64decode (s : string) : option string :=
  match s with
  | EmptyString => Some EmptyString
  | String c1 (String c2 (String c3 (String c4 rest))) =>
      match value c1, value c2 with
      | Some d1, Some d2 =>
          let b1 := ascii_of_N (d1 * 4 + d2 / 16) in
          if Ascii.eqb c3 pad then
            if Ascii.eqb c4 pad && String.eqb rest EmptyString
            then Some (String b1 EmptyString)
            else None
          else
            match value c3 with
            | Some d3 =>
                let b2 := ascii_of_N ((d2 mod 16) * 16 + d3 / 4) in
                if Ascii.eqb c4 pad then
                  if String.eqb rest EmptyString
                  then Some (String b1 (String b2 EmptyString))
                  else None
                else
                  match value c4, b64decode rest with
                  | Some d4, Some tail =>
                      Some (String b1 (String b2
                              (String (ascii_of_N ((d3 mod 4) * 64 + d4)) tail)))
                  | _, _ => None
                  end
            | None => None
            end
      | _, _ => None
      end
  | _ => None
  end%N.

End Base64Decode.


(** ** The batch driver on a console that can fail

    [print] raises when the text cannot be encoded for the console or
    the pipe is closed, and nothing protects the [print] of the [except]
    branch.  The loop is given again with that fault and with the text of
    a missing-file error left to the runtime (it formats the path with
    [repr]).  [BatchDriver] is this loop for the runtime [plain], whose
    console takes every text. *)

Module Console.
Import Py OsPath PyText BatchDriver.

(** - [print_fault printed s]: the error of [print(s)] after the texts in
      [printed] went out, if it raises.
    - [missing_text path]: [str(e)] of the FileNotFoundError for [path]. *)
Record runtime : Type := {
  print_fault : list string -> string -> option exn;
  missing_text : string -> string
}.

(** The text of the [print] in the [except] branch. *)
Definition error_line (line : string) (e : exn) : string :=
  "Error processing " +:+ line +:+ ": (" +:+ str e +:+ ")".

(** [print(s)] *)
Definition print_on (R : runtime) (s : string) : M unit :=
  fun st =>
    match print_fault R (stdout st) s with
    | Some e => raise e st
    | None => print s st
    end.

(** [with open(path, 'r', encoding='utf-8') as infile: infile.read()] *)
Definition read_text_on (R : runtime) (E : env) (path : string) : M string :=
  fun st =>
    match read_fault E path with
    | Some e => raise e st
    | None =>
        match files st !! path with
        | Some text => ret text st
        | None => raise (Exn "FileNotFoundError" (missing_text R path)) st
        end
    end.

(** The body of the [try] block for one line. *)
Definition try_body_on (R : runtime) (E : env) (line : string) : M unit :=
  print_on R ("Processing " +:+ line) ;;;
  contents <- read_text_on R E line ;;
  let output_path := output_path_of line in
  let prompt := make_prompt contents in
  response <- run E prompt ;;
  open_w E output_path ;;;
  write E output_path (content response).

(** The [except Exception as e] handler: its [print] is not guarded. *)
Definition handler_on (R : runtime) (line : string) (e : exn) : M unit :=
  print_on R (error_line line e).

(** One iteration of the [for] loop. *)
Definition iteration_on (R : runtime) (E : env) (line : string) : M unit :=
  if accepted line then try_except (try_body_on R E line) (handler_on R line)
  else ret tt.

(** [for line in lines: ...]: an exception that leaves an iteration ends
    the loop and the script. *)
Fixpoint main_loop_on (R : runtime) (E : env) (lines : list string) : M unit :=
  match lines with
  | [] => ret tt
  | line :: rest => iteration_on R E line ;;; main_loop_on R E rest
  end.

(** Every error line can be printed, whatever was printed before. *)
Definition errors_print (R : runtime) : Prop :=
  forall printed line e, print_fault R printed (error_line line e) = None.

(** Every announcement can be printed, whatever was printed before. *)
Definition announcements_print (R : runtime) : Prop :=
  forall printed line, print_fault R printed ("Processing " +:+ line) = None.

(** The runtime of [BatchDriver]: every text can be printed. *)
Definition plain : runtime :=
  {| print_fault := fun _ _ => None;
     missing_text := fun path => "[Errno 2] No such file or directory: '" +:+ path +:+ "'" |}.

(** A console that encodes to ASCII. *)
Definition ascii_console : runtime :=
  {| print_fault := fun _ s =>
       if is_ascii s then None
       else Some (Exn "UnicodeEncodeError" "'ascii' codec can't encode character");
     missing_text := missing_text plain |}.

(** A team whose backend answers with an error text that is not ASCII. *)
Definition accented_team : env :=
  {| team_run := fun _ _ =>
       inl (Exn "RuntimeError" ("cr" +:+ String (ascii_of_nat 233) "dit insuffisant"));
     read_fault := fun _ => None;
     open_w_fault := fun _ => None;
     write_fault := fun _ => None |}.


End Console.

(** ** [uuid.uuid4] and the session token, [str(uuid.uuid4())]

    [uuid4()] is [UUID(bytes=os.urandom(16), version=4)].  The sixteen
    random bytes are taken as the integer [int.from_bytes(bytes, 'big')],
    which lies in [0, 2^128). *)

Module Uuid.
Import Py.

(** The integer of the UUID: the variant and version bits are forced. *)
Definition uuid4_int (r : Z) : Z :=
  let i := Z.land r (Z.lnot (Z.shiftl 0xc000 48)) in
  let i := Z.lor i (Z.shiftl 0x8000 48) in
  let i := Z.land i (Z.lnot (Z.shiftl 0xf000 64)) in
  Z.lor i (Z.shiftl 4 76).

Definition hexchar (d : Z) : ascii :=
  match String.get (Z.to_nat d) "0123456789abcdef" with
  | Some c => c
  | None => "0"%char
  end.

(** The last [k] hexadecimal digits of [v]; ['%032x' % v] is
    [hex_digits 32 v] for [v] in [0, 2^128). *)
Fixpoint hex_digits (k : nat) (v : Z) : string :=
  match k with
  | O => EmptyString
  | S k' => hex_digits k' (v / 16) +:+ String (hexchar (v mod 16)) EmptyString
  end.

(** [s[i:j]] for [0 <= i <= j] *)
Definition slice (i j : nat) (s : string) : string := take_str (j - i) (drop_str i s).

(** [UUID.__str__] *)
Definition uuid_str (i : Z) : string :=
  let hex := hex_digits 32 i in
  slice 0 8 hex +:+ "-" +:+ slice 8 12 hex +:+ "-" +:+ slice 12 16 hex +:+ "-" +:+
  slice 16 20 hex +:+ "-" +:+ drop_str 20 hex.

(** [str(uuid.uuid4())] at the [k]-th call, for the stream [urandom] of
    random integers. *)
Definition uuid4_str (urandom : nat -> Z) (k : nat) : string :=
  uuid_str (uuid4_int (urandom k)).

(** A header value werkzeug accepts: no carriage return, no line feed. *)
Definition header_safe (s : string) : bool :=
  forallb (fun a => negb (Ascii.eqb a (ascii_of_nat 13)) && negb (Ascii.eqb a (ascii_of_nat 10)))
          (list_ascii_of_string s).



End Uuid.


(** ** Facts about strings and paths *)
Module PathFacts.
Import Py OsPath.

Lemma append_nil (r : string) : EmptyString +:+ r = r.
Proof. reflexivity. Qed.

Lemma append_cons (a : ascii) (p r : string) : String a p +:+ r = String a (p +:+ r).
Proof. reflexivity. Qed.

Lemma append_assoc (a b c : string) : (a +:+ b) +:+ c = a +:+ (b +:+ c).
Proof.
  induction a as [|x a IH]; [reflexivity|].
  rewrite !append_cons. now rewrite IH.
Qed.

Lemma startswith_iff (p s : string) :
  startswith p s = true <-> exists rest, s = p +:+ rest.
Proof.
  unfold startswith. revert s. induction p as [|a p IH]; intros s.
  - split; [intros _; exists s; reflexivity | intros _; destruct s; reflexivity].
  - destruct s as [|b s]; cbn; [split; [discriminate | intros [r Hr]; discriminate]|].
    destruct (Ascii.ascii_dec a b) as [<-|Hne].
    + rewrite IH. split; intros [r Hr]; exists r; rewrite append_cons in *; congruence.
    + split; [discriminate | intros [r Hr]; rewrite append_cons in Hr; congruence].
Qed.

Lemma substring_all (x : string) : String.substring 0 (String.length x) x = x.
Proof. induction x as [|a x IH]; cbn; [reflexivity | now rewrite IH]. Qed.

Lemma substring_skip (r x : string) (m : nat) :
  String.substring (String.length r) m (r +:+ x) = String.substring 0 m x.
Proof.
  induction r as [|a r IH]; [reflexivity|].
  rewrite append_cons. cbn. exact IH.
Qed.

Lemma length_append (r x : string) :
  String.length (r +:+ x) = (String.length r + String.length x)%nat.
Proof.
  induction r as [|a r IH]; [reflexivity|].
  rewrite append_cons. cbn. now rewrite IH.
Qed.

Lemma take_drop (k : nat) (s : string) : s = take_str k s +:+ drop_str k s.
Proof.
  revert s. induction k as [|k IH]; intros s; [reflexivity|].
  destruct s as [|a s]; cbn; [reflexivity | now rewrite append_cons, <- IH].
Qed.

Lemma substring_drop (k m : nat) (s : string) :
  String.substring k m s = String.substring 0 m (drop_str k s).
Proof.
  revert s. induction k as [|k IH]; intros s; [reflexivity|].
  destruct s as [|a s]; cbn; [now destruct m | apply IH].
Qed.

Lemma length_drop (k : nat) (s : string) :
  String.length (drop_str k s) = (String.length s - k)%nat.
Proof.
  revert s. induction k as [|k IH]; intros s; cbn; [lia|].
  destruct s as [|a s]; cbn; [reflexivity | apply IH].
Qed.

Lemma endswith_iff (x s : string) :
  endswith x s = true <-> exists stem, s = stem +:+ x.
Proof.
  unfold endswith. split.
  - destruct (Nat.leb_spec (String.length x) (String.length s)) as [Hle|]; [|discriminate].
    intros Heq%String.eqb_eq.
    exists (take_str (String.length s - String.length x) s).
    rewrite substring_drop in Heq.
    pose proof (length_drop (String.length s - String.length x) s) as Hlen.
    replace (String.length s - (String.length s - String.length x))%nat
      with (String.length x) in Hlen by lia.
    rewrite (take_drop (String.length s - String.length x) s) at 1.
    set (d := drop_str (String.length s - String.length x) s) in *.
    rewrite <- Hlen, substring_all in Heq. now rewrite Heq.
  - intros [stem ->]. rewrite length_append.
    destruct (Nat.leb_spec (String.length x) (String.length stem + String.length x)) as [_|];
      [|lia].
    replace (String.length stem + String.length x - String.length x)%nat
      with (String.length stem) by lia.
    rewrite substring_skip, substring_all. apply String.eqb_refl.
Qed.


Lemma rfind_from_app (c : ascii) (s1 s2 : string) (i found : Z) :
  rfind_from c (s1 +:+ s2) i found =
  rfind_from c s2 (i + Z.of_nat (String.length s1)) (rfind_from c s1 i found).
Proof.
  revert i found. induction s1 as [|a s1 IH]; intros i found.
  - rewrite append_nil. cbn. now rewrite Z.add_0_r.
  - rewrite append_cons. cbn [rfind_from String.length]. rewrite IH.
    f_equal. lia.
Qed.

Lemma rfind_from_cases (c : ascii) (b : string) (i found : Z) :
  (forall j g, rfind_from c b j g = g) \/ i <= rfind_from c b i found.
Proof.
  revert i found. induction b as [|a b IH]; intros i found; [left; reflexivity|].
  cbn [rfind_from].
  destruct (IH (i + 1) (if Ascii.eqb a c then i else found)) as [Habs|Hhit].
  - destruct (Ascii.eqb a c) eqn:Hac.
    + right. rewrite Habs. lia.
    + left. intros j g. apply Habs.
  - right. lia.
Qed.

Lemma rfind_absent (c : ascii) (b : string) :
  rfind c b = -1 -> forall j g, rfind_from c b j g = g.
Proof.
  unfold rfind. intros H.
  destruct (rfind_from_cases c b 0 (-1)) as [Habs|Hhit]; [exact Habs | lia].
Qed.

Lemma drop_str_app (d x : string) : drop_str (String.length d) (d +:+ x) = x.
Proof.
  induction d as [|a d IH]; [reflexivity|].
  rewrite append_cons. exact IH.
Qed.

(** The base name of [d/b] is [b] when [b] has no slash. *)
Lemma basename_in_dir (d b : string) :
  rfind sep b = -1 -> basename (d +:+ "/" +:+ b) = b.
Proof.
  intros Hb. unfold basename, rfind.
  rewrite rfind_from_app.
  change ("/" +:+ b) with (String sep b). cbn [rfind_from].
  rewrite Ascii.eqb_refl, (rfind_absent sep b Hb).
  replace (Z.to_nat (0 + Z.of_nat (String.length d) + 1))
    with (S (String.length d)) by lia.
  change (String sep b) with (String sep EmptyString +:+ b).
  pose proof (drop_str_app (d +:+ String sep EmptyString) b) as H.
  rewrite length_append in H. cbn [String.length] in H.
  replace (String.length d + 1)%nat with (S (String.length d)) in H by lia.
  rewrite <- append_assoc. exact H.
Qed.

End PathFacts.

(** ** Facts about the batch driver *)
Module BatchFacts.
Import Py OsPath BatchDriver PathFacts.

Ltac run_steps :=
  repeat first
    [ progress cbn [fst snd files stdout prompts]
    | match goal with
      | |- context [match ?x with _ => _ end] =>
          lazymatch x with
          | context [match _ with _ => _ end] => fail
          | _ => destruct x eqn:?
          end
      end ].

Lemma iteration_rejected (E : env) (line : string) (st : state) :
  accepted line = false -> iteration E line st = (st, inr tt).
Proof. intros H. unfold iteration. rewrite H. reflexivity. Qed.

Lemma iteration_returns (E : env) (line : string) (st : state) :
  snd (iteration E line st) = inr tt.
Proof.
  unfold iteration. destruct (accepted line); [|reflexivity].
  unfold try_except. destruct (try_body E line st) as [st' [e|[]]]; reflexivity.
Qed.

Lemma main_loop_returns (E : env) (lines : list string) (st : state) :
  snd (main_loop E lines st) = inr tt.
Proof.
  revert st. induction lines as [|line rest IH]; intros st; [reflexivity|].
  cbn [main_loop]. unfold bind.
  pose proof (iteration_returns E line st) as Hit.
  destruct (iteration E line st) as [st' [e|[]]]; cbn in Hit; [discriminate|].
  apply IH.
Qed.

Lemma main_loop_cons (E : env) (line : string) (rest : list string) (st : state) :
  main_loop E (line :: rest) st = main_loop E rest (fst (iteration E line st)).
Proof.
  cbn [main_loop]. unfold bind.
  pose proof (iteration_returns E line st) as Hit.
  destruct (iteration E line st) as [st' [e|[]]]; cbn in Hit; [discriminate|].
  reflexivity.
Qed.

Lemma main_loop_app (E : env) (l1 l2 : list string) (st : state) :
  main_loop E (l1 ++ l2) st = main_loop E l2 (fst (main_loop E l1 st)).
Proof.
  revert st. induction l1 as [|line rest IH]; intros st; [reflexivity|].
  rewrite <- app_comm_cons, !main_loop_cons. apply IH.
Qed.

Lemma try_body_success (E : env) (st : state) (line contents : string) (r : TeamRunResponse) :
  succeeds E st line contents r ->
  try_body E line st =
    ({| files := <[output_path_of line := content r]> (files st);
        stdout := stdout st ++ ["Processing " +:+ line];
        prompts := prompts st ++ [make_prompt contents] |}, inr tt).
Proof.
  intros (Hr & Hf & Ht & Ho & Hw).
  unfold try_body, bind, print, read_text, run, open_w, write, raise, ret. cbn.
  rewrite Hr, Hf. cbn. rewrite Ht, Ho. cbn. rewrite Hw. cbn.
  by rewrite insert_insert_eq.
Qed.


Lemma try_body_stdout (E : env) (line : string) (st : state) :
  stdout (fst (try_body E line st)) = stdout st ++ ["Processing " +:+ line].
Proof.
  unfold try_body, bind, print, read_text, run, open_w, write, raise, ret.
  run_steps; reflexivity.
Qed.

Lemma try_body_frame (E : env) (line p : string) (st : state) :
  p <> output_path_of line ->
  files (fst (try_body E line st)) !! p = files st !! p.
Proof.
  intros Hp.
  unfold try_body, bind, print, read_text, run, open_w, write, raise, ret.
  run_steps; simplify_eq; cbn; rewrite ?lookup_insert_ne by congruence; reflexivity.
Qed.

Lemma iteration_failure (E : env) (line : string) (st : state) (e : exn) :
  accepted line = true ->
  snd (try_body E line st) = inl e ->
  iteration E line st =
    (let st' := fst (try_body E line st) in
     {| files := files st';
        stdout := stdout st ++ ["Processing " +:+ line;
                                "Error processing " +:+ line +:+ ": (" +:+ str e +:+ ")"];
        prompts := prompts st' |}, inr tt).
Proof.
  intros Ha He. unfold iteration. rewrite Ha. unfold try_except.
  pose proof (try_body_stdout E line st) as Hs.
  destruct (try_body E line st) as [st' [e'|[]]]; cbn in *; [|discriminate].
  injection He as ->. unfold handler, print. cbn.
  rewrite Hs, <- app_assoc. reflexivity.
Qed.

Lemma iteration_stdout (E : env) (line : string) (st : state) :
  exists extra, stdout (fst (iteration E line st)) = stdout st ++ extra /\
    (accepted line = true -> In ("Processing " +:+ line) extra).
Proof.
  unfold iteration. destruct (accepted line) eqn:Ha.
  - unfold try_except.
    pose proof (try_body_stdout E line st) as Hs.
    destruct (try_body E line st) as [st' [e'|[]]]; cbn in *.
    + eexists. rewrite Hs, <- app_assoc. split; [reflexivity|]. intros _. now left.
    + eexists. split; [exact Hs|]. intros _. now left.
  - exists []. rewrite app_nil_r. split; [reflexivity|discriminate].
Qed.

Lemma main_loop_stdout (E : env) (lines : list string) (st : state) :
  exists extra, stdout (fst (main_loop E lines st)) = stdout st ++ extra /\
    (forall l, In l lines -> accepted l = true -> In ("Processing " +:+ l) extra).
Proof.
  revert st. induction lines as [|line rest IH]; intros st.
  - exists []. rewrite app_nil_r. split; [reflexivity|]. intros l [].
  - rewrite main_loop_cons.
    destruct (iteration_stdout E line st) as (x1 & H1 & P1).
    destruct (IH (fst (iteration E line st))) as (x2 & H2 & P2).
    exists (x1 ++ x2). rewrite H2, H1, <- app_assoc. split; [reflexivity|].
    intros l [<-|Hl] Ha; apply in_or_app; [left; auto|right; auto].
Qed.

Lemma iteration_frame (E : env) (line p : string) (st : state) :
  files (fst (iteration E line st)) !! p <> files st !! p ->
  accepted line = true /\ p = output_path_of line.
Proof.
  unfold iteration. destruct (accepted line) eqn:Ha; [|intros []; reflexivity].
  intros Hne. split; [reflexivity|].
  destruct (decide (p = output_path_of line)) as [|Hp]; [assumption|].
  exfalso. apply Hne. rewrite <- (try_body_frame E line p st Hp).
  unfold try_except. destruct (try_body E line st) as [st' [e'|[]]]; reflexivity.
Qed.

Lemma main_loop_frame (E : env) (lines : list string) (p : string) (st : state) :
  files (fst (main_loop E lines st)) !! p <> files st !! p ->
  exists line, In line lines /\ accepted line = true /\ p = output_path_of line.
Proof.
  revert st. induction lines as [|line rest IH]; intros st.
  - intros []. reflexivity.
  - rewrite main_loop_cons. intros Hne.
    destruct (decide (files (fst (iteration E line st)) !! p = files st !! p)) as [Heq|Hch].
    + rewrite <- Heq in Hne. destruct (IH _ Hne) as (l & Hin & Hl).
      exists l. split; [now right|exact Hl].
    + exists line. split; [now left|]. exact (iteration_frame E line p st Hch).
Qed.


Lemma iteration_success (E : env) (st : state) (line contents : string) (r : TeamRunResponse) :
  accepted line = true ->
  succeeds E st line contents r ->
  iteration E line st =
    ({| files := <[output_path_of line := content r]> (files st);
        stdout := stdout st ++ ["Processing " +:+ line];
        prompts := prompts st ++ [make_prompt contents] |}, inr tt).
Proof.
  intros Ha Hs. unfold iteration, try_except.
  rewrite Ha, (try_body_success E st line contents r Hs). reflexivity.
Qed.

Lemma try_body_written (E : env) (line : string) (st : state) :
  files (fst (try_body E line st)) <> files st ->
  exists contents r,
    files st !! line = Some contents /\
    team_run E (prompts st) (make_prompt contents) = inr r.
Proof.
  unfold try_body, bind, print, read_text, run, open_w, write, raise, ret.
  run_steps; intros Hne; try (exfalso; apply Hne; reflexivity); eauto.
Qed.

Lemma iteration_written (E : env) (line : string) (st : state) :
  files (fst (iteration E line st)) <> files st ->
  exists contents r,
    files st !! line = Some contents /\
    team_run E (prompts st) (make_prompt contents) = inr r.
Proof.
  unfold iteration. destruct (accepted line); [|intros []; reflexivity].
  intros Hne. apply try_body_written.
  unfold try_except in Hne.
  destruct (try_body E line st) as [st' [e'|[]]]; exact Hne.
Qed.

(** The ways in which the [try] block raises, with the state it leaves. *)

Lemma read_fault_raises (E : env) (line : string) (st : state) (e : exn) :
  read_fault E line = Some e ->
  try_body E line st =
    ({| files := files st;
        stdout := stdout st ++ ["Processing " +:+ line];
        prompts := prompts st |}, inl e).
Proof.
  intros Hr. unfold try_body, bind, print, read_text, raise, ret. cbn.
  rewrite Hr. reflexivity.
Qed.

Lemma missing_file_raises (E : env) (line : string) (st : state) :
  read_fault E line = None ->
  files st !! line = None ->
  try_body E line st =
    ({| files := files st;
        stdout := stdout st ++ ["Processing " +:+ line];
        prompts := prompts st |},
     inl (Exn "FileNotFoundError"
              ("[Errno 2] No such file or directory: '" +:+ line +:+ "'"))).
Proof.
  intros Hr Hf. unfold try_body, bind, print, read_text, raise, ret. cbn.
  rewrite Hr, Hf. reflexivity.
Qed.

Lemma open_fault_raises (E : env) (line contents : string) (st : state)
    (r : TeamRunResponse) (e : exn) :
  read_fault E line = None ->
  files st !! line = Some contents ->
  team_run E (prompts st) (make_prompt contents) = inr r ->
  open_w_fault E (output_path_of line) = Some e ->
  try_body E line st =
    ({| files := files st;
        stdout := stdout st ++ ["Processing " +:+ line];
        prompts := prompts st ++ [make_prompt contents] |}, inl e).
Proof.
  intros Hr Hf Ht Ho.
  unfold try_body, bind, print, read_text, run, open_w, raise, ret. cbn.
  rewrite Hr, Hf. cbn. rewrite Ht, Ho. reflexivity.
Qed.

(** A failed [write] leaves the report created by [open] behind, empty. *)
Lemma write_fault_raises (E : env) (line contents : string) (st : state)
    (r : TeamRunResponse) (e : exn) :
  read_fault E line = None ->
  files st !! line = Some contents ->
  team_run E (prompts st) (make_prompt contents) = inr r ->
  open_w_fault E (output_path_of line) = None ->
  write_fault E (output_path_of line) = Some e ->
  try_body E line st =
    ({| files := <[output_path_of line := EmptyString]> (files st);
        stdout := stdout st ++ ["Processing " +:+ line];
        prompts := prompts st ++ [make_prompt contents] |}, inl e).
Proof.
  intros Hr Hf Ht Ho Hw.
  unfold try_body, bind, print, read_text, run, open_w, write, raise, ret. cbn.
  rewrite Hr, Hf. cbn. rewrite Ht, Ho. cbn. rewrite Hw. reflexivity.
Qed.

Lemma team_failure_raises (E : env) (line contents : string) (st : state) (e : exn) :
  read_fault E line = None ->
  files st !! line = Some contents ->
  team_run E (prompts st) (make_prompt contents) = inl e ->
  try_body E line st =
    ({| files := files st;
        stdout := stdout st ++ ["Processing " +:+ line];
        prompts := prompts st ++ [make_prompt contents] |}, inl e).
Proof.
  intros Hr Hf Ht.
  unfold try_body, bind, print, read_text, run, raise, ret. cbn.
  rewrite Hr, Hf. cbn. rewrite Ht. reflexivity.
Qed.


(** The filter of the loop, in words: the path lies under [source/] and
    ends in [.py] or [.js]. *)
Lemma accepted_iff (line : string) :
  accepted line = true <->
  (exists rest, line = "source/" +:+ rest) /\
  ((exists stem, line = stem +:+ ".py") \/ (exists stem, line = stem +:+ ".js")).
Proof.
  unfold accepted.
  rewrite andb_true_iff, orb_true_iff, startswith_iff, !endswith_iff.
  reflexivity.
Qed.

Lemma output_path_by_basename (l1 l2 : string) :
  basename l1 = basename l2 -> output_path_of l1 = output_path_of l2.
Proof. unfold output_path_of. now intros ->. Qed.

(** The directory of an artifact plays no part in the name of its report. *)
Lemma output_path_ignores_directory (d1 d2 b : string) :
  rfind sep b = -1 ->
  output_path_of (d1 +:+ "/" +:+ b) = output_path_of (d2 +:+ "/" +:+ b).
Proof.
  intros Hb. apply output_path_by_basename.
  now rewrite !basename_in_dir.
Qed.

End BatchFacts.

(** ** Properties of the batch driver *)
Module BatchClaims.
Import Py OsPath BatchDriver PathFacts BatchFacts Stubs.

(** C4.  When [team.run] raises for an accepted, readable artifact, the
    iteration leaves every file as it was and only prints the two lines;
    and in general an iteration changes the files only after [team.run]
    has returned a response. *)
Theorem C4_no_report_when_team_fails (E : env) (line contents : string) (st : state) (e : exn) :
  accepted line = true ->
  read_fault E line = None ->
  files st !! line = Some contents ->
  team_run E (prompts st) (make_prompt contents) = inl e ->
  (files (fst (iteration E line st)) = files st /\
   stdout (fst (iteration E line st)) =
     stdout st ++ ["Processing " +:+ line;
                   "Error processing " +:+ line +:+ ": (" +:+ str e +:+ ")"] /\
   snd (iteration E line st) = inr tt) /\
  (forall (l : string) (s : state),
     files (fst (iteration E l s)) <> files s ->
     exists c r, files s !! l = Some c /\ team_run E (prompts s) (make_prompt c) = inr r).
Proof.
  intros Ha Hr Hf Ht.
  pose proof (team_failure_raises E line contents st e Hr Hf Ht) as Hbody.
  split; [|intros l s; apply iteration_written].
  rewrite (iteration_failure E line st e Ha); [|rewrite Hbody; reflexivity].
  rewrite Hbody. cbn. repeat split; reflexivity.
Qed.

(** C4 with the backend down. *)
Lemma C4_witness :
  files (fst (iteration failing_team "source/app.py" checkout)) = files checkout /\
  stdout (fst (iteration failing_team "source/app.py" checkout)) =
    ["Processing source/app.py"; "Error processing source/app.py: (backend unavailable)"].
Proof.
  pose proof (C4_no_report_when_team_fails failing_team "source/app.py" "print(1)" checkout
                (Exn "RuntimeError" "backend unavailable")
                eq_refl eq_refl eq_refl eq_refl) as ((H1 & H2 & _) & _).
  split; [exact H1 | exact H2].
Defined.


(** C2.  For the changed files [source/app.py], [README.md] and
    [source/widget.js], when both sources are processed without error, the
    loop writes [reports/app.md] and [reports/widget.md] and nothing else,
    and never announces [README.md].  In general the filter accepts a line
    exactly when it starts with [source/] and ends in [.py] or [.js]; a
    line that is not accepted changes nothing; and any file the loop
    changes is the report of an accepted line. *)
Theorem C2_allow_list (E : env) (st : state) (c1 c2 : string) (r1 r2 : TeamRunResponse) :
  succeeds E st "source/app.py" c1 r1 ->
  succeeds E {| files := <["reports/app.md" := content r1]> (files st);
                stdout := stdout st ++ ["Processing source/app.py"];
                prompts := prompts st ++ [make_prompt c1] |}
           "source/widget.js" c2 r2 ->
  main_loop E ["source/app.py"; "README.md"; "source/widget.js"] st =
    ({| files := <["reports/widget.md" := content r2]>
                   (<["reports/app.md" := content r1]> (files st));
        stdout := stdout st ++ ["Processing source/app.py"; "Processing source/widget.js"];
        prompts := prompts st ++ [make_prompt c1; make_prompt c2] |}, inr tt) /\
  (forall line,
     accepted line = true <->
     (exists rest, line = "source/" +:+ rest) /\
     ((exists stem, line = stem +:+ ".py") \/ (exists stem, line = stem +:+ ".js"))) /\
  (forall line s, accepted line = false -> iteration E line s = (s, inr tt)) /\
  (forall lines s p,
     files (fst (main_loop E lines s)) !! p <> files s !! p ->
     exists line, In line lines /\ accepted line = true /\ p = output_path_of line).
Proof.
  intros H1 H2.
  split; [|split; [exact accepted_iff|split;
    [intros line s; apply iteration_rejected | intros lines s p; apply main_loop_frame]]].
  rewrite main_loop_cons, (iteration_success E st "source/app.py" c1 r1 eq_refl H1).
  rewrite main_loop_cons, (iteration_rejected E "README.md" _ eq_refl).
  rewrite main_loop_cons. cbn [fst].
  change (output_path_of "source/app.py") with "reports/app.md".
  change ("Processing " +:+ "source/app.py") with "Processing source/app.py".
  rewrite (iteration_success E _ "source/widget.js" c2 r2 eq_refl H2).
  cbn [main_loop ret fst files stdout prompts].
  rewrite <- !app_assoc. reflexivity.
Qed.

(** C2 with a team that quotes the prompt. *)
Lemma C2_witness :
  main_loop quoting_team ["source/app.py"; "README.md"; "source/widget.js"] checkout =
    ({| files := <["reports/widget.md" := "# Report" +:+ make_prompt "let w = 2"]>
                   (<["reports/app.md" := "# Report" +:+ make_prompt "print(1)"]>
                      (files checkout));
        stdout := ["Processing source/app.py"; "Processing source/widget.js"];
        prompts := [make_prompt "print(1)"; make_prompt "let w = 2"] |}, inr tt).
Proof.
  refine (proj1 (C2_allow_list quoting_team checkout "print(1)" "let w = 2"
                   {| content := "# Report" +:+ make_prompt "print(1)" |}
                   {| content := "# Report" +:+ make_prompt "let w = 2" |} _ _)).
  - repeat split; reflexivity.
  - repeat split; reflexivity.
Defined.

(** C5.  Two accepted artifacts with the same base name have the same
    output path.  When the earlier one is processed without error its
    report is there; once the later one has been processed without error,
    the same path holds the later report, and that iteration printed its
    announcement only. *)
Theorem C5_same_base_name_overwrites (E : env) (st : state) (l1 l2 : string)
    (mid : list string) (c1 c2 : string) (r1 r2 : TeamRunResponse) :
  accepted l1 = true ->
  accepted l2 = true ->
  basename l1 = basename l2 ->
  succeeds E st l1 c1 r1 ->
  succeeds E (fst (main_loop E (l1 :: mid) st)) l2 c2 r2 ->
  output_path_of l1 = output_path_of l2 /\
  files (fst (iteration E l1 st)) !! output_path_of l1 = Some (content r1) /\
  files (fst (main_loop E (l1 :: mid ++ [l2]) st)) !! output_path_of l1 = Some (content r2) /\
  stdout (fst (main_loop E (l1 :: mid ++ [l2]) st)) =
    stdout (fst (main_loop E (l1 :: mid) st)) ++ ["Processing " +:+ l2] /\
  snd (main_loop E (l1 :: mid ++ [l2]) st) = inr tt.
Proof.
  intros Ha1 Ha2 Hb Hs1 Hs2.
  pose proof (output_path_by_basename l1 l2 Hb) as Hout.
  split; [exact Hout|].
  split.
  { rewrite (iteration_success E st l1 c1 r1 Ha1 Hs1). cbn. apply lookup_insert_eq. }
  rewrite app_comm_cons, main_loop_app, main_loop_cons.
  rewrite (iteration_success E _ l2 c2 r2 Ha2 Hs2).
  cbn [main_loop ret fst snd files stdout].
  split; [|split; reflexivity].
  rewrite Hout. apply lookup_insert_eq.
Qed.

(** C5 for [source/a/util.py] and [source/b/util.py]. *)
Lemma C5_witness :
  output_path_of "source/a/util.py" = output_path_of "source/b/util.py" /\
  files (fst (iteration quoting_team "source/a/util.py" checkout)) !! "reports/util.md" =
    Some ("# Report" +:+ make_prompt "A = 1") /\
  files (fst (main_loop quoting_team ("source/a/util.py" :: ["source/app.py"] ++ ["source/b/util.py"])
                checkout)) !! "reports/util.md" =
    Some ("# Report" +:+ make_prompt "B = 2").
Proof.
  pose proof (C5_same_base_name_overwrites quoting_team checkout
                "source/a/util.py" "source/b/util.py" ["source/app.py"] "A = 1" "B = 2"
                {| content := "# Report" +:+ make_prompt "A = 1" |}
                {| content := "# Report" +:+ make_prompt "B = 2" |}
                eq_refl eq_refl eq_refl) as H.
  destruct H as (H1 & H2 & H3 & _).
  - repeat split; reflexivity.
  - repeat split; reflexivity.
  - split; [exact H1 | split; [exact H2 | exact H3]].
Defined.

End BatchClaims.

(** ** Facts about the base64 encoder *)

Module Base64Facts.
Import Base64.

(** The test vectors of RFC 4648, section 10. *)
Example rfc4648_vectors :
  map b64encode ["f"; "fo"; "foo"; "foob"; "fooba"; "foobar"] =
    ["Zg=="; "Zm8="; "Zm9v"; "Zm9vYg=="; "Zm9vYmE="; "Zm9vYmFy"].
Proof. reflexivity. Qed.

Example encode_empty : b64encode EmptyString = EmptyString.
Proof. reflexivity. Qed.

(** Induction over a string three characters at a time, as the encoder
    reads it. *)
Lemma string_triples (P : string -> Prop) :
  P EmptyString ->
  (forall a, P (String a EmptyString)) ->
  (forall a b, P (String a (String b EmptyString))) ->
  (forall a b c s, P s -> P (String a (String b (String c s)))) ->
  forall s, P s.
Proof.
  intros H0 H1 H2 H3 s.
  assert (H : P s /\ (forall a, P (String a s)) /\ (forall a b, P (String a (String b s)))).
  { induction s as [|c s (IH0 & IH1 & IH2)].
    - auto.
    - split; [apply IH1|]. split; [intros a; apply IH2|]. intros a b. apply H3, IH0. }
  apply H.
Qed.

(** Every started group of three bytes gives four characters. *)
Lemma length_b64encode (bs : string) :
  String.length (b64encode bs) = (4 * ((String.length bs + 2) / 3))%nat.
Proof.
  induction bs as [|a|a b|a b c s IH] using string_triples; try reflexivity.
  cbn [b64encode String.length]. rewrite IH.
  replace (S (S (S (String.length s))) + 2)%nat
    with (1 * 3 + (String.length s + 2))%nat by lia.
  rewrite Nat.div_add_l by lia. lia.
Qed.

End Base64Facts.

(** ** Facts about the web service *)

Module WebFacts.
Import Py WebApp PathFacts.


Lemma ask_team_unbound (uuid4_str : nat -> string) (B : backend) (req : Request)
    (w : world) (e : exn) :
  header_session_id req = inl e ->
  ask_team uuid4_str B req w =
    (Unhandled (Exn "UnboundLocalError"
       "cannot access local variable 'session_id' where it is not associated with a value"), w).
Proof. intros Hh. unfold ask_team, try_block. rewrite Hh. reflexivity. Qed.




(** Iterating a non-empty [str] through [generate] stops at once. *)
Lemma generate_str (a : ascii) (s : string) :
  generate (OfStr (String a s)) = ([], Some attribute_error).
Proof. reflexivity. Qed.

Lemma chars_one_character (s : string) :
  Forall (fun o => exists a, o = PyStr (String a EmptyString)) (chars s).
Proof. induction s as [|a s IH]; cbn; constructor; eauto. Qed.

Lemma apology_nonempty (e : exn) : exists a s, apology e = String a s.
Proof. unfold apology. rewrite append_cons. eauto. Qed.

End WebFacts.

(** ** Properties of the web service *)
Module WebClaims.
Import Py WebApp PathFacts WebFacts WebStubs.

(** C7.  A request with token [abc] whose [team.run] raises: the handler
    returns a response with status 200 and the header, but its body is
    [generate] applied to the apology [str], and sending it raises before
    any text is produced; the apology never reaches the caller. *)
Theorem C7_apology_is_not_delivered :
  exists resp,
    ask_team unary failing_backend resumed_request fresh_world = (Returned resp, fresh_world) /\
    status resp = 200 /\
    session_header resp = Some "abc" /\
    body resp = Stream (OfStr "I'm sorry, but something went wrong. (backend unavailable)") /\
    consume (body resp) = ([], Some attribute_error).
Proof. eexists. repeat split. Qed.

(** C10.  When the [try] block raises with [session_id] bound, the
    response returned has [generate(apology)] as its body; the items
    iterated are one-character strings, [.content] raises on each of them,
    and consuming the body yields no text and stops with the
    AttributeError. *)
Theorem C10_degraded_stream_raises (uuid4_str : nat -> string) (B : backend)
    (req : Request) (w w' : world) (sid : string) (e : exn) :
  try_block uuid4_str B req w = (w', Some sid, inl e) ->
  exists resp,
    ask_team uuid4_str B req w = (Returned resp, w') /\
    body resp = Stream (OfStr (apology e)) /\
    Forall (fun o => exists a, o = PyStr (String a EmptyString)) (fst (iter (OfStr (apology e)))) /\
    (forall o, In o (fst (iter (OfStr (apology e)))) -> getattr_content o = inl attribute_error) /\
    consume (body resp) = ([], Some attribute_error).
Proof.
  intros Htry. unfold ask_team. rewrite Htry. cbn.
  eexists. split; [reflexivity|]. cbn [body set_header make_response].
  split; [reflexivity|].
  split; [apply chars_one_character|].
  split.
  - intros o Hin.
    pose proof (chars_one_character (apology e)) as Hall.
    rewrite List.Forall_forall in Hall. destruct (Hall o Hin) as [a ->]. reflexivity.
  - destruct (apology_nonempty e) as (a & s & ->). reflexivity.
Qed.

(** C10 for a request with token [abc] and a backend that is down. *)
Lemma C10_witness :
  exists resp,
    ask_team unary failing_backend resumed_request fresh_world = (Returned resp, fresh_world) /\
    consume (body resp) = ([], Some attribute_error).
Proof.
  destruct (C10_degraded_stream_raises unary failing_backend resumed_request
              fresh_world fresh_world "abc" (Exn "RuntimeError" "backend unavailable") eq_refl)
    as (resp & H1 & _ & _ & _ & H2).
  exists resp. split; [exact H1 | exact H2].
Defined.

(** C8.  With the image file present, the response has status 200 and
    the body is [data:image/png;base64,] followed by the base64 text of
    the bytes; the file is gone afterwards, and the same request repeated
    at once gets status 200 with an empty body. *)
Theorem C8_image_is_served_once (IMAGE_PATH : string) (fs : gmap string string)
    (image_bytes : string) :
  fs !! IMAGE_PATH = Some image_bytes ->
  get_image IMAGE_PATH fs =
    ({| status := 200; headers := ∅;
        body := Text ("data:image/png;base64," +:+ Base64.b64encode image_bytes) |},
     delete IMAGE_PATH fs) /\
  (delete IMAGE_PATH fs) !! IMAGE_PATH = None /\
  get_image IMAGE_PATH (snd (get_image IMAGE_PATH fs)) =
    ({| status := 200; headers := ∅; body := Text EmptyString |}, delete IMAGE_PATH fs).
Proof.
  intros Hfs.
  assert (Hfirst : get_image IMAGE_PATH fs =
            (make_response (Text ("data:image/png;base64," +:+ Base64.b64encode image_bytes)),
             delete IMAGE_PATH fs))
    by (unfold get_image; rewrite Hfs; reflexivity).
  rewrite Hfirst. cbn [snd].
  split; [reflexivity|]. split; [apply lookup_delete_eq|].
  unfold get_image. rewrite lookup_delete_eq. reflexivity.
Qed.

(** C8 for an image file holding the bytes [Man]. *)
Lemma C8_witness :
  get_image "static/image.png" image_present =
    ({| status := 200; headers := ∅; body := Text "data:image/png;base64,TWFu" |},
     delete "static/image.png" image_present) /\
  fst (get_image "static/image.png" (snd (get_image "static/image.png" image_present))) =
    {| status := 200; headers := ∅; body := Text EmptyString |}.
Proof.
  destruct (C8_image_is_served_once "static/image.png" image_present "Man" eq_refl)
    as (H1 & _ & H3).
  split; [exact H1 | rewrite H3; reflexivity].
Defined.

(** C9.  With no image file, the response has status 200 and an empty
    body, and the file system is returned as it was. *)
Theorem C9_absent_image_changes_nothing (IMAGE_PATH : string) (fs : gmap string string) :
  fs !! IMAGE_PATH = None ->
  get_image IMAGE_PATH fs =
    ({| status := 200; headers := ∅; body := Text EmptyString |}, fs).
Proof. intros Hfs. unfold get_image. rewrite Hfs. reflexivity. Qed.

(** C9 on an empty file system. *)
Lemma C9_witness :
  get_image "static/image.png" ∅ =
    ({| status := 200; headers := ∅; body := Text EmptyString |}, ∅).
Proof. exact (C9_absent_image_changes_nothing "static/image.png" ∅ eq_refl). Defined.

End WebClaims.

(** ** More facts about [os.path] *)

Module OsPathFacts.
Import Py OsPath PathFacts.

Lemma append_nil_r (s : string) : s +:+ EmptyString = s.
Proof.
  induction s as [|a s IH]; [reflexivity|].
  now rewrite append_cons, IH.
Qed.

(** [rfind] returns [-1] exactly when the character does not occur. *)
Lemma rfind_none_cons (c a : ascii) (s : string) :
  rfind c (String a s) = -1 <-> a <> c /\ rfind c s = -1.
Proof.
  unfold rfind. cbn [rfind_from]. split.
  - intros H. destruct (Ascii.eqb_spec a c) as [->|Hne].
    + destruct (rfind_from_cases c s (0 + 1) 0) as [Habs|Hhit]; [rewrite Habs in H|]; lia.
    + split; [exact Hne|].
      destruct (rfind_from_cases c s (0 + 1) (-1)) as [Habs|Hhit]; [apply Habs | lia].
  - intros [Hne Hs]. destruct (Ascii.eqb_spec a c) as [->|_]; [contradiction|].
    apply (rfind_absent c s Hs).
Qed.

Lemma rfind_none_app (c : ascii) (s1 s2 : string) :
  rfind c (s1 +:+ s2) = -1 <-> rfind c s1 = -1 /\ rfind c s2 = -1.
Proof.
  induction s1 as [|a s1 IH].
  - rewrite append_nil. split; [intros H; split; [reflexivity | exact H] | intros [_ H]; exact H].
  - rewrite append_cons, !rfind_none_cons, IH. tauto.
Qed.

(** Where [rfind] finds the character: the text splits there, and the
    character does not occur after it. *)
Lemma rfind_split (c : ascii) (p : string) :
  rfind c p = -1 \/
  exists pre post,
    p = pre +:+ String c post /\
    rfind c p = Z.of_nat (String.length pre) /\
    rfind c post = -1.
Proof.
  assert (H : (forall j g, rfind_from c p j g = g) \/
              exists pre post, p = pre +:+ String c post /\
                (forall j g, rfind_from c p j g = j + Z.of_nat (String.length pre)) /\
                rfind c post = -1).
  { induction p as [|a p IH]; [left; reflexivity|].
    destruct IH as [Habs|(pre & post & -> & Hfind & Hpost)].
    - destruct (Ascii.eqb_spec a c) as [->|Hne].
      + right. exists EmptyString, p. split; [reflexivity|]. split.
        * intros j g. cbn [rfind_from]. rewrite Ascii.eqb_refl, Habs. cbn. lia.
        * apply Habs.
      + left. intros j g. cbn [rfind_from].
        destruct (Ascii.eqb_spec a c); [contradiction | apply Habs].
    - right. exists (String a pre), post. split; [reflexivity|]. split; [|exact Hpost].
      intros j g. cbn [rfind_from String.length].
      rewrite Hfind. lia. }
  destruct H as [Habs|(pre & post & Hp & Hfind & Hpost)].
  - left. apply Habs.
  - right. exists pre, post. split; [exact Hp|]. split; [|exact Hpost].
    unfold rfind. rewrite Hfind. lia.
Qed.

Lemma drop_str_app_cons (pre post : string) (c : ascii) :
  drop_str (S (String.length pre)) (pre +:+ String c post) = post.
Proof.
  induction pre as [|a pre IH]; [reflexivity|].
  rewrite append_cons. exact IH.
Qed.

Lemma take_str_app (pre rest : string) :
  take_str (String.length pre) (pre +:+ rest) = pre.
Proof.
  induction pre as [|a pre IH]; [now destruct rest|].
  rewrite append_cons. cbn. now rewrite IH.
Qed.

(** [basename] keeps what follows the last slash. *)
Lemma basename_split (p : string) :
  rfind sep (basename p) = -1 /\
  exists d, p = d +:+ basename p /\ (d = EmptyString \/ endswith "/" d = true).
Proof.
  unfold basename.
  destruct (rfind_split sep p) as [Hnone|(pre & post & Hp & Hfind & Hpost)].
  - rewrite Hnone. cbn [Z.add Z.to_nat drop_str]. split; [exact Hnone|].
    exists EmptyString. split; [reflexivity | now left].
  - rewrite Hfind.
    replace (Z.to_nat (Z.of_nat (String.length pre) + 1)) with (S (String.length pre)) by lia.
    subst p. rewrite drop_str_app_cons. split; [exact Hpost|].
    exists (pre +:+ "/"). split.
    + now rewrite append_assoc.
    + right. apply endswith_iff. now exists pre.
Qed.

Lemma splitext_concat (p : string) :
  fst (splitext p) +:+ snd (splitext p) = p.
Proof.
  unfold splitext.
  destruct (rfind sep p <? rfind extsep p); [|apply append_nil_r].
  destruct (has_stem _ p _); [|apply append_nil_r].
  cbn [fst snd]. symmetry. apply take_drop.
Qed.


Lemma rfind_lower_bound (c : ascii) (p : string) : -1 <= rfind c p.
Proof.
  destruct (rfind_split c p) as [->|(pre & post & _ & -> & _)]; lia.
Qed.

(** The extension is empty, or a dot followed by text without dot or slash. *)
Lemma splitext_ext_shape (p : string) :
  snd (splitext p) = EmptyString \/
  exists r, snd (splitext p) = String extsep r /\ rfind extsep r = -1 /\ rfind sep r = -1.
Proof.
  unfold splitext.
  destruct (Z.ltb_spec (rfind sep p) (rfind extsep p)) as [Hlt|]; [|now left].
  destruct (has_stem _ p _); [|now left].
  right. cbn [snd].
  pose proof (rfind_lower_bound sep p) as Hlow.
  destruct (rfind_split extsep p) as [Hnone|(pre & post & Hp & Hfind & Hpost)]; [lia|].
  exists post. rewrite Hfind, Nat2Z.id.
  split; [|split; [exact Hpost|]].
  - rewrite Hp. clear. induction pre as [|a pre IH]; [reflexivity|].
    rewrite append_cons. exact IH.
  - rewrite Hfind in Hlt. rewrite Hp in Hlt. unfold rfind in Hlt.
    rewrite rfind_from_app in Hlt. cbn [rfind_from] in Hlt.
    change (Ascii.eqb extsep sep) with false in Hlt.
    destruct (rfind_from_cases sep post (0 + Z.of_nat (String.length pre) + 1)
                (rfind_from sep pre 0 (-1))) as [Habs|Hhit]; [apply Habs | lia].
Qed.

(** Only the empty path has an empty root: a name made of dots and an
    extension, such as [.py], is kept whole. *)
Lemma splitext_root_nonempty (p : string) :
  p <> EmptyString -> fst (splitext p) <> EmptyString.
Proof.
  intros Hp. unfold splitext.
  destruct (Z.ltb_spec (rfind sep p) (rfind extsep p)) as [Hlt|]; [|exact Hp].
  destruct (has_stem _ p _) eqn:Hstem; [|exact Hp].
  cbn [fst].
  pose proof (rfind_lower_bound sep p) as Hlow.
  destruct (Z.to_nat (rfind extsep p - (rfind sep p + 1))) as [|fuel] eqn:Hfuel;
    [discriminate Hstem|].
  destruct (Z.to_nat (rfind extsep p)) as [|k] eqn:Hk; [lia|].
  destruct p as [|a p]; [contradiction | discriminate].
Qed.

Lemma char_at_app (s1 rest : string) (a : ascii) :
  char_at (String.length s1) (s1 +:+ String a rest) = String a EmptyString.
Proof.
  unfold char_at. induction s1 as [|b s1 IH]; [reflexivity|].
  rewrite append_cons. exact IH.
Qed.

(** The loop of [splitext] finds a character that is not a dot exactly
    when the stretch it scans has one. *)
Lemma has_stem_app (s1 s2 rest : string) :
  has_stem (String.length s2) (s1 +:+ s2 +:+ rest) (String.length s1) = true <->
  exists c, In c (list_ascii_of_string s2) /\ c <> extsep.
Proof.
  revert s1. induction s2 as [|a s2 IH]; intros s1.
  - cbn. split; [discriminate | intros (c & [] & _)].
  - cbn [String.length has_stem list_ascii_of_string].
    rewrite append_cons, char_at_app.
    destruct (Ascii.eqb_spec a extsep) as [->|Hne].
    + cbn [String.eqb]. rewrite Ascii.eqb_refl. cbn [negb].
      specialize (IH (s1 +:+ String extsep EmptyString)).
      rewrite append_assoc, length_append in IH. cbn [String.length] in IH.
      rewrite append_cons, append_nil in IH.
      replace (String.length s1 + 1)%nat with (S (String.length s1)) in IH by lia.
      rewrite IH. split.
      * intros (c & Hin & Hc). exists c. split; [now right | exact Hc].
      * intros (c & [<-|Hin] & Hc); [contradiction | eauto].
    + cbn [String.eqb]. destruct (Ascii.eqb_spec a extsep) as [|_]; [contradiction|].
      cbn [negb]. split; [intros _ | reflexivity].
      exists a. split; [now left | exact Hne].
Qed.

Lemma rfind_ext (stem ext : string) :
  rfind extsep ext = -1 ->
  rfind extsep (stem +:+ String extsep ext) = Z.of_nat (String.length stem).
Proof.
  intros Hext. unfold rfind. rewrite rfind_from_app. cbn [rfind_from].
  rewrite Ascii.eqb_refl, (rfind_absent extsep ext Hext). lia.
Qed.

(** [splitext] on [stem.ext]: the extension comes off when the stem has a
    character other than a dot, and stays when it has none. *)
Lemma splitext_stem_ext (stem ext : string) :
  rfind sep stem = -1 ->
  rfind extsep ext = -1 ->
  rfind sep ext = -1 ->
  splitext (stem +:+ String extsep ext) =
    if has_stem (String.length stem) (stem +:+ String extsep ext) 0
    then (stem, String extsep ext)
    else (stem +:+ String extsep ext, EmptyString).
Proof.
  intros Hstem Hext Hsep. unfold splitext.
  assert (Hs : rfind sep (stem +:+ String extsep ext) = -1).
  { apply rfind_none_app. split; [exact Hstem|].
    apply rfind_none_cons. split; [discriminate | exact Hsep]. }
  rewrite Hs, (rfind_ext stem ext Hext).
  destruct (Z.ltb_spec (-1) (Z.of_nat (String.length stem))) as [_|]; [|lia].
  replace (Z.to_nat (Z.of_nat (String.length stem) - (-1 + 1))) with (String.length stem) by lia.
  change (Z.to_nat (-1 + 1)) with 0%nat.
  destruct (has_stem _ _ _); [|reflexivity].
  rewrite Nat2Z.id, take_str_app.
  f_equal. clear. induction stem as [|a stem IH]; [reflexivity|].
  rewrite append_cons. exact IH.
Qed.

End OsPathFacts.

(** ** More facts about the batch driver *)

Module BatchMore.
Import Py OsPath BatchDriver PathFacts OsPathFacts BatchFacts.

Lemma join_reports (b : string) :
  rfind sep b = -1 -> join "reports" b = "reports/" +:+ b.
Proof.
  intros Hb. unfold join, startswith.
  destruct b as [|a b]; [reflexivity|].
  apply rfind_none_cons in Hb as [Ha _].
  cbn [String.prefix].
  destruct (Ascii.ascii_dec sep a) as [<-|_]; [contradiction | reflexivity].
Qed.

Lemma output_path_shape (line : string) :
  exists name,
    name = fst (splitext (basename line)) /\
    rfind sep name = -1 /\
    output_path_of line = "reports/" +:+ name +:+ ".md".
Proof.
  unfold output_path_of.
  pose proof (splitext_concat (basename line)) as Hcat.
  destruct (basename_split line) as [Hbase _].
  destruct (splitext (basename line)) as [name ext]. cbn [fst snd] in *.
  rewrite <- Hcat in Hbase. apply rfind_none_app in Hbase as [Hname _].
  exists name. split; [reflexivity|]. split; [exact Hname|].
  apply join_reports. apply rfind_none_app. split; [exact Hname | reflexivity].
Qed.

Lemma output_path_in_reports (line : string) :
  startswith "reports/" (output_path_of line) = true.
Proof.
  destruct (output_path_shape line) as (name & _ & _ & ->).
  apply startswith_iff. eauto.
Qed.

Lemma output_path_of_stem (d stem ext : string) :
  rfind sep stem = -1 ->
  rfind extsep ext = -1 ->
  rfind sep ext = -1 ->
  output_path_of (d +:+ "/" +:+ stem +:+ String extsep ext) =
    if has_stem (String.length stem) (stem +:+ String extsep ext) 0
    then "reports/" +:+ stem +:+ ".md"
    else "reports/" +:+ stem +:+ String extsep ext +:+ ".md".
Proof.
  intros Hstem Hext Hsep.
  assert (Hb : rfind sep (stem +:+ String extsep ext) = -1).
  { apply rfind_none_app. split; [exact Hstem|].
    apply rfind_none_cons. split; [discriminate | exact Hsep]. }
  unfold output_path_of.
  rewrite (basename_in_dir d _ Hb), (splitext_stem_ext stem ext Hstem Hext Hsep).
  destruct (has_stem _ _ _).
  - apply join_reports. apply rfind_none_app. split; [exact Hstem | reflexivity].
  - rewrite join_reports; [now rewrite append_assoc|].
    apply rfind_none_app. split; [exact Hb | reflexivity].
Qed.

End BatchMore.

Module BatchLoopFacts.
Import Py OsPath BatchDriver BatchSpec PathFacts OsPathFacts BatchFacts BatchMore Stubs.

Lemma source_not_reports (line : string) :
  startswith "source/" line = true -> startswith "reports/" line = false.
Proof.
  intros [rest ->]%startswith_iff. reflexivity.
Qed.

Lemma main_loop_outside_reports (E : env) (lines : list string) (st : state) (p : string) :
  startswith "reports/" p = false ->
  files (fst (main_loop E lines st)) !! p = files st !! p.
Proof.
  intros Hp.
  destruct (decide (files (fst (main_loop E lines st)) !! p = files st !! p)) as [|Hne];
    [assumption|].
  destruct (main_loop_frame E lines p st Hne) as (line & _ & _ & ->).
  rewrite output_path_in_reports in Hp. discriminate.
Qed.

Lemma iteration_outside_reports (E : env) (line : string) (st : state) (p : string) :
  startswith "reports/" p = false ->
  files (fst (iteration E line st)) !! p = files st !! p.
Proof.
  intros Hp.
  pose proof (main_loop_outside_reports E [line] st p Hp) as H.
  rewrite main_loop_cons in H. exact H.
Qed.

Lemma asked_agree (E : env) (fs1 fs2 : gmap string string) (line : string) :
  (forall p, startswith "reports/" p = false -> fs1 !! p = fs2 !! p) ->
  asked E fs1 line = asked E fs2 line.
Proof.
  intros Hagree. unfold asked, accepted.
  destruct (startswith "source/" line) eqn:Hsrc; [|reflexivity].
  rewrite (Hagree line (source_not_reports line Hsrc)). reflexivity.
Qed.

Lemma iteration_unreadable (E : env) (line : string) (st : state) :
  accepted line = true ->
  asked E (files st) line = None ->
  exists e,
    iteration E line st =
      ({| files := files st;
          stdout := stdout st ++ ["Processing " +:+ line;
                                  "Error processing " +:+ line +:+ ": (" +:+ str e +:+ ")"];
          prompts := prompts st |}, inr tt) /\
    (files st !! line = None -> read_fault E line = None ->
       exists msg, e = Exn "FileNotFoundError" msg).
Proof.
  intros Ha Hask. unfold asked in Hask. rewrite Ha in Hask.
  destruct (read_fault E line) as [e|] eqn:Hr.
  - exists e. split; [|discriminate].
    rewrite (iteration_failure E line st e Ha);
      rewrite (read_fault_raises E line st e Hr); reflexivity.
  - destruct (files st !! line) as [c|] eqn:Hf; [discriminate|].
    exists (Exn "FileNotFoundError"
              ("[Errno 2] No such file or directory: '" +:+ line +:+ "'")).
    split; [|intros _ _; eauto].
    rewrite (iteration_failure E line st
               (Exn "FileNotFoundError"
                    ("[Errno 2] No such file or directory: '" +:+ line +:+ "'")) Ha);
      rewrite (missing_file_raises E line st Hr Hf); reflexivity.
Qed.

Lemma iteration_write_fault (E : env) (line contents : string) (st : state)
    (r : TeamRunResponse) (e : exn) :
  accepted line = true ->
  read_fault E line = None ->
  files st !! line = Some contents ->
  team_run E (prompts st) (make_prompt contents) = inr r ->
  open_w_fault E (output_path_of line) = None ->
  write_fault E (output_path_of line) = Some e ->
  iteration E line st =
    ({| files := <[output_path_of line := EmptyString]> (files st);
        stdout := stdout st ++ ["Processing " +:+ line;
                                "Error processing " +:+ line +:+ ": (" +:+ str e +:+ ")"];
        prompts := prompts st ++ [make_prompt contents] |}, inr tt).
Proof.
  intros Ha Hr Hf Ht Ho Hw.
  pose proof (write_fault_raises E line contents st r e Hr Hf Ht Ho Hw) as Hbody.
  rewrite (iteration_failure E line st e Ha); rewrite Hbody; reflexivity.
Qed.

Lemma append_cancel_l (p x y : string) : p +:+ x = p +:+ y -> x = y.
Proof.
  induction p as [|a p IH]; [now rewrite !append_nil|].
  rewrite !append_cons. intros [= H]. auto.
Qed.

Lemma append_cancel_r (x y s : string) : x +:+ s = y +:+ s -> x = y.
Proof.
  intros H.
  assert (Hlen : String.length x = String.length y).
  { apply (f_equal String.length) in H. rewrite !length_append in H. lia. }
  revert y H Hlen. induction x as [|a x IH]; intros [|b y] H Hlen; try discriminate Hlen.
  - reflexivity.
  - rewrite !append_cons in H. injection H as -> H.
    f_equal. apply IH; [exact H | now injection Hlen].
Qed.

Lemma make_prompt_inj (c1 c2 : string) : make_prompt c1 = make_prompt c2 -> c1 = c2.
Proof.
  unfold make_prompt. intros H.
  do 8 apply append_cancel_l in H.
  now apply append_cancel_r in H.
Qed.

End BatchLoopFacts.

(** ** Facts about the parsing of git's listing *)

Module PyTextFacts.
Import Py PyText PathFacts OsPathFacts.

Lemma split_nonempty (c : ascii) (s : string) : split c s <> [].
Proof.
  destruct s as [|a s]; cbn; [discriminate|].
  destruct (Ascii.eqb a c); [discriminate|].
  destruct (split c s); discriminate.
Qed.

(** Joining the pieces with the separator gives the text back. *)
Lemma concat_split (c : ascii) (s : string) :
  String.concat (String c EmptyString) (split c s) = s.
Proof.
  induction s as [|a s IH]; [reflexivity|].
  cbn [split]. pose proof (split_nonempty c s) as Hne.
  destruct (Ascii.eqb_spec a c) as [->|Hac].
  - destruct (split c s) as [|h t]; [contradiction|].
    cbn [String.concat] in *. rewrite append_nil, IH. reflexivity.
  - destruct (split c s) as [|h t]; [contradiction|].
    destruct t as [|h' t]; cbn [String.concat] in *.
    + now rewrite IH.
    + rewrite append_cons, IH. reflexivity.
Qed.

(** No piece contains the separator. *)
Lemma split_pieces (c : ascii) (s : string) :
  Forall (fun piece => rfind c piece = -1) (split c s).
Proof.
  induction s as [|a s IH]; [repeat constructor|].
  cbn [split]. destruct (Ascii.eqb_spec a c) as [->|Hac].
  - constructor; [reflexivity | exact IH].
  - destruct (split c s) as [|h t]; [repeat constructor|].
    + apply rfind_none_cons. split; [exact Hac | reflexivity].
    + inversion IH as [|? ? Hh Ht]; subst. constructor; [|exact Ht].
      apply rfind_none_cons. split; [exact Hac | exact Hh].
Qed.

(** Pieces without the separator, joined by it, split back into
    themselves. *)
Lemma split_concat (c : ascii) (pieces : list string) :
  pieces <> [] ->
  Forall (fun piece => rfind c piece = -1) pieces ->
  split c (String.concat (String c EmptyString) pieces) = pieces.
Proof.
  assert (Hone : forall p, rfind c p = -1 -> split c p = [p]).
  { induction p as [|a p IH]; [reflexivity|].
    intros [Ha Hp]%rfind_none_cons. cbn [split].
    destruct (Ascii.eqb_spec a c) as [|_]; [contradiction|].
    now rewrite (IH Hp). }
  assert (Hmore : forall p rest, rfind c p = -1 ->
            split c (p +:+ String c rest) = p :: split c rest).
  { induction p as [|a p IH]; intros rest.
    - intros _. rewrite append_nil. cbn [split]. now rewrite Ascii.eqb_refl.
    - intros [Ha Hp]%rfind_none_cons. rewrite append_cons. cbn [split].
      destruct (Ascii.eqb_spec a c) as [|_]; [contradiction|].
      now rewrite (IH rest Hp). }
  induction pieces as [|p rest IH]; [contradiction|].
  intros _ Hall. inversion Hall as [|? ? Hp Hrest]; subst.
  destruct rest as [|q rest].
  - cbn [String.concat]. apply Hone, Hp.
  - cbn [String.concat] in *. rewrite append_cons, append_nil.
    rewrite (Hmore p _ Hp). f_equal. apply IH; [discriminate | exact Hrest].
Qed.

Lemma lstrip_length (s : string) :
  lstrip s = s \/ (String.length (lstrip s) < String.length s)%nat.
Proof.
  induction s as [|a s IH]; [now left|].
  cbn [lstrip]. destruct (isspace a); [|now left].
  right. cbn [String.length]. destruct IH as [->|]; lia.
Qed.

Lemma rstrip_length (s : string) : (String.length (rstrip s) <= String.length s)%nat.
Proof.
  induction s as [|a s IH]; [reflexivity|].
  cbn [rstrip]. destruct (rstrip s) as [|b r].
  - destruct (isspace a); cbn; lia.
  - cbn [String.length] in *. lia.
Qed.

Lemma rstrip_blank (ws : string) : blank ws = true -> rstrip ws = EmptyString.
Proof.
  unfold blank. induction ws as [|a ws IH]; [reflexivity|].
  cbn [list_ascii_of_string forallb rstrip]. intros [Ha Hws]%andb_true_iff.
  now rewrite (IH Hws), Ha.
Qed.

Lemma lstrip_blank (ws : string) : blank ws = true -> lstrip ws = EmptyString.
Proof.
  unfold blank. induction ws as [|a ws IH]; [reflexivity|].
  cbn [list_ascii_of_string forallb lstrip]. intros [Ha Hws]%andb_true_iff.
  now rewrite Ha, (IH Hws).
Qed.

(** Whitespace after a text does not change what [rstrip] keeps. *)
Lemma rstrip_app_blank (s ws : string) :
  blank ws = true -> rstrip (s +:+ ws) = rstrip s.
Proof.
  intros Hws. induction s as [|a s IH].
  - rewrite append_nil. apply rstrip_blank, Hws.
  - rewrite append_cons. cbn [rstrip]. now rewrite IH.
Qed.

Lemma strip_fixed (s : string) : strip s = s -> lstrip s = s /\ rstrip s = s.
Proof.
  unfold strip. intros H.
  destruct (lstrip_length s) as [Hl|Hlt].
  - rewrite Hl in H. now split.
  - pose proof (rstrip_length (lstrip s)) as Hr. rewrite H in Hr. lia.
Qed.

Lemma lstrip_app (s t : string) :
  s <> EmptyString -> lstrip s = s -> lstrip (s +:+ t) = s +:+ t.
Proof.
  destruct s as [|a s]; [contradiction|]. intros _ H.
  rewrite append_cons. cbn [lstrip] in *. destruct (isspace a); [|reflexivity].
  exfalso. destruct (lstrip_length s) as [Heq|Hlt].
  - rewrite Heq in H. apply (f_equal String.length) in H. cbn in H. lia.
  - rewrite H in Hlt. cbn in Hlt. lia.
Qed.

(** A text without whitespace at its ends survives [strip] when blanks
    are put after it. *)
Lemma strip_app_blank (s ws : string) :
  strip s = s -> blank ws = true -> strip (s +:+ ws) = s.
Proof.
  intros [Hl Hr]%strip_fixed Hws. unfold strip.
  destruct s as [|a s].
  - rewrite append_nil, (lstrip_blank ws Hws). reflexivity.
  - rewrite (lstrip_app (String a s) ws); [|discriminate|exact Hl].
    rewrite (rstrip_app_blank _ ws Hws). exact Hr.
Qed.

Lemma strip_blank (ws : string) : blank ws = true -> strip ws = EmptyString.
Proof. intros H. unfold strip. now rewrite (lstrip_blank ws H). Qed.

End PyTextFacts.

(** ** The encoder can be undone *)

Module Base64RoundTrip.
Import Base64 Base64Decode Base64Facts.

Lemma digits_checked :
  forallb (fun k => match value (digit (N.of_nat k)) with
                    | Some m => N.eqb m (N.of_nat k) && negb (Ascii.eqb (digit (N.of_nat k)) pad)
                    | None => false
                    end) (seq 0 64) = true.
Proof. vm_compute. reflexivity. Qed.

Lemma value_digit (n : N) :
  (n < 64)%N -> value (digit n) = Some n /\ Ascii.eqb (digit n) pad = false.
Proof.
  intros Hn. pose proof digits_checked as H.
  rewrite forallb_forall in H.
  specialize (H (N.to_nat n)).
  rewrite N2Nat.id in H.
  assert (Hin : In (N.to_nat n) (seq 0 64)) by (apply in_seq; lia).
  specialize (H Hin).
  destruct (value (digit n)) as [m|]; [|discriminate].
  apply andb_true_iff in H as [Hm Hp].
  apply N.eqb_eq in Hm. subst m. split; [reflexivity|].
  now destruct (Ascii.eqb (digit n) pad).
Qed.

Ltac divmod := zify; Z.to_euclidean_division_equations; lia.

Lemma byte_bound (a : ascii) : (N_of_ascii a < 256)%N.
Proof. apply N_ascii_bounded. Qed.

Lemma decode_one (d1 d2 : N) :
  (d1 < 64)%N -> (d2 < 64)%N ->
  b64decode (String (digit d1) (String (digit d2) (String pad (String pad EmptyString)))) =
    Some (String (ascii_of_N (d1 * 4 + d2 / 16)) EmptyString).
Proof.
  intros [V1 _]%value_digit [V2 _]%value_digit.
  cbn [b64decode]. rewrite V1, V2. reflexivity.
Qed.

Lemma decode_two (d1 d2 d3 : N) :
  (d1 < 64)%N -> (d2 < 64)%N -> (d3 < 64)%N ->
  b64decode (String (digit d1) (String (digit d2) (String (digit d3) (String pad EmptyString)))) =
    Some (String (ascii_of_N (d1 * 4 + d2 / 16))
            (String (ascii_of_N ((d2 mod 16) * 16 + d3 / 4)) EmptyString)).
Proof.
  intros [V1 _]%value_digit [V2 _]%value_digit [V3 P3]%value_digit.
  cbn [b64decode]. rewrite V1, V2, P3, V3. reflexivity.
Qed.

Lemma decode_three (d1 d2 d3 d4 : N) (rest : string) :
  (d1 < 64)%N -> (d2 < 64)%N -> (d3 < 64)%N -> (d4 < 64)%N ->
  b64decode (String (digit d1) (String (digit d2) (String (digit d3) (String (digit d4) rest)))) =
    match b64decode rest with
    | Some tail =>
        Some (String (ascii_of_N (d1 * 4 + d2 / 16))
                (String (ascii_of_N ((d2 mod 16) * 16 + d3 / 4))
                   (String (ascii_of_N ((d3 mod 4) * 64 + d4)) tail)))
    | None => None
    end.
Proof.
  intros [V1 _]%value_digit [V2 _]%value_digit [V3 P3]%value_digit [V4 P4]%value_digit.
  cbn [b64decode]. rewrite V1, V2, P3, V3, P4, V4. reflexivity.
Qed.

(** Decoding what the encoder wrote gives the bytes back. *)
Lemma decode_encode (bs : string) : b64decode (b64encode bs) = Some bs.
Proof.
  induction bs as [|a|a b|a b c s IH] using string_triples.
  - reflexivity.
  - cbn [b64encode].
    pose proof (byte_bound a) as Ha.
    rewrite <- (ascii_N_embedding a) at 3.
    set (x := N_of_ascii a) in *.
    change "=="%string with (String pad (String pad EmptyString)).
    rewrite decode_one by divmod.
    do 2 f_equal. f_equal. divmod.
  - cbn [b64encode].
    pose proof (byte_bound a) as Ha. pose proof (byte_bound b) as Hb.
    rewrite <- (ascii_N_embedding a) at 3. rewrite <- (ascii_N_embedding b) at 3.
    set (x := N_of_ascii a) in *. set (y := N_of_ascii b) in *.
    change "="%string with (String pad EmptyString).
    rewrite decode_two by divmod.
    f_equal. f_equal; [f_equal; divmod|]. f_equal. f_equal. divmod.
  - cbn [b64encode].
    pose proof (byte_bound a) as Ha. pose proof (byte_bound b) as Hb.
    pose proof (byte_bound c) as Hc.
    rewrite <- (ascii_N_embedding a) at 3. rewrite <- (ascii_N_embedding b) at 3.
    rewrite <- (ascii_N_embedding c) at 3.
    set (x := N_of_ascii a) in *. set (y := N_of_ascii b) in *. set (z := N_of_ascii c) in *.
    rewrite decode_three by divmod. rewrite IH.
    f_equal. f_equal; [f_equal; divmod|]. f_equal; [f_equal; divmod|].
    f_equal. f_equal. divmod.
Qed.

Lemma b64encode_inj (b1 b2 : string) : b64encode b1 = b64encode b2 -> b1 = b2.
Proof.
  intros H. apply (f_equal b64decode) in H.
  rewrite !decode_encode in H. now injection H.
Qed.

End Base64RoundTrip.

(** ** More facts about the web service *)

Module WebMore.
Import Py WebApp PathFacts WebFacts.

Lemma generate_items_events (events : list string) (fault : option exn) :
  generate_items (map PyEvent events) fault = (events, fault).
Proof.
  induction events as [|ev events IH]; [reflexivity|].
  cbn [map generate_items getattr_content]. now rewrite IH.
Qed.

Lemma ask_team_success (uuid4_str : nat -> string) (B : backend) (req : Request)
    (w : world) (h : option string) (team0 : Team) (output : iterable) :
  header_session_id req = inr h ->
  create_team B = inr team0 ->
  team_run B {| members := members team0;
                session_id := Some (fst (resolve_session uuid4_str h w)) |}
           (arg_input req) = inr output ->
  ask_team uuid4_str B req w =
    (Returned {| status := 200;
                 headers := {[ "X-Session-ID" := fst (resolve_session uuid4_str h w) ]};
                 body := Stream output |},
     snd (resolve_session uuid4_str h w)).
Proof.
  intros Hh Hc Hr. unfold ask_team, try_block. rewrite Hh.
  destruct (resolve_session uuid4_str h w) as [sid w1]. cbn [fst snd] in *.
  rewrite Hc, Hr. reflexivity.
Qed.

Lemma resolve_minted_bounds (uuid4_str : nat -> string) (h : option string) (w : world) :
  (minted w <= minted (snd (resolve_session uuid4_str h w)) <= S (minted w))%nat.
Proof.
  unfold resolve_session. destruct h as [s|]; [destruct (falsy (Some s))|]; cbn; lia.
Qed.

Lemma ask_team_shape (uuid4_str : nat -> string) (B : backend) (req : Request)
    (w w' : world) (resp : Response) :
  ask_team uuid4_str B req w = (Returned resp, w') ->
  status resp = 200 /\
  (exists sid, headers resp = {[ "X-Session-ID" := sid ]}) /\
  (minted w <= minted w' <= S (minted w))%nat.
Proof.
  unfold ask_team, try_block.
  destruct (header_session_id req) as [e|h]; [discriminate|].
  pose proof (resolve_minted_bounds uuid4_str h w) as Hb.
  destruct (resolve_session uuid4_str h w) as [sid w1]. cbn [snd] in Hb.
  destruct (create_team B) as [e|team0]; [|destruct (team_run B _ _) as [e|output]];
    cbn; intros [= <- <-]; (split; [reflexivity|]); (split; [|exact Hb]);
    exists sid; reflexivity.
Qed.

Lemma get_image_effect (IMAGE_PATH : string) (fs : gmap string string) :
  snd (get_image IMAGE_PATH fs) = delete IMAGE_PATH fs /\
  status (fst (get_image IMAGE_PATH fs)) = 200 /\
  headers (fst (get_image IMAGE_PATH fs)) = ∅.
Proof.
  unfold get_image. destruct (fs !! IMAGE_PATH) eqn:Hfs; cbn.
  - repeat split.
  - repeat split. symmetry. apply delete_id, Hfs.
Qed.

Lemma get_image_body (IMAGE_PATH : string) (fs : gmap string string) :
  body (fst (get_image IMAGE_PATH fs)) =
    match fs !! IMAGE_PATH with
    | Some image_bytes => Text ("data:image/png;base64," +:+ Base64.b64encode image_bytes)
    | None => Text EmptyString
    end.
Proof. unfold get_image. destruct (fs !! IMAGE_PATH); reflexivity. Qed.

End WebMore.

(** ** Further properties of the path functions *)

Module PathExtras.
Import Py OsPath BatchDriver PathFacts OsPathFacts BatchFacts BatchMore.

(** X1.  [splitext] cuts a path in two parts that give it back when put
    together.  The extension is empty or a dot followed by text with
    neither dot nor slash, and only the empty path has an empty root. *)
Theorem X1_splitext_laws (p : string) :
  fst (splitext p) +:+ snd (splitext p) = p /\
  (snd (splitext p) = EmptyString \/
   exists r, snd (splitext p) = "." +:+ r /\ rfind "." r = -1 /\ rfind "/" r = -1) /\
  (p <> EmptyString -> fst (splitext p) <> EmptyString).
Proof.
  split; [apply splitext_concat|]. split; [|apply splitext_root_nonempty].
  destruct (splitext_ext_shape p) as [Hnone|(r & Hr & Hdot & Hsep)]; [now left|].
  right. exists r. repeat split; assumption.
Qed.

(** X2.  [basename] returns a text without slash, and the path is a
    directory part (empty, or ending in a slash) followed by it.  For
    [d/b] with no slash in [b] it returns [b]. *)
Theorem X2_basename_laws (p d b : string) :
  rfind "/" b = -1 ->
  rfind "/" (basename p) = -1 /\
  (exists dir, p = dir +:+ basename p /\ (dir = EmptyString \/ endswith "/" dir = true)) /\
  basename (d +:+ "/" +:+ b) = b.
Proof.
  intros Hb. destruct (basename_split p) as [Hno Hdir].
  split; [exact Hno|]. split; [exact Hdir|]. apply basename_in_dir, Hb.
Qed.

Lemma X2_witness :
  rfind "/" (basename "source/sub/app.py") = -1 /\
  basename ("source/sub" +:+ "/" +:+ "app.py") = "app.py".
Proof.
  destruct (X2_basename_laws "source/sub/app.py" "source/sub" "app.py" eq_refl)
    as (H1 & _ & H3).
  split; [exact H1 | exact H3].
Defined.

(** X3.  The report of every line lies directly in [reports/]: its path
    is [reports/] followed by the root of the line's base name and [.md],
    and that root has no slash. *)
Theorem X3_report_path_shape (line : string) :
  exists name,
    name = fst (splitext (basename line)) /\
    rfind "/" name = -1 /\
    output_path_of line = "reports/" +:+ name +:+ ".md" /\
    basename (output_path_of line) = name +:+ ".md".
Proof.
  destruct (output_path_shape line) as (name & Hname & Hno & Hout).
  exists name. split; [exact Hname|]. split; [exact Hno|]. split; [exact Hout|].
  rewrite Hout.
  change ("reports/" +:+ name +:+ ".md") with ("reports" +:+ "/" +:+ (name +:+ ".md")).
  apply basename_in_dir. apply rfind_none_app. split; [exact Hno | reflexivity].
Qed.

(** X4.  For a line [d/stem.ext], with no slash in [stem] and neither
    dot nor slash in [ext]: when [stem] has a character other than a dot
    the report is [reports/stem.md]; when it has none (a file called
    [.py], say) the extension stays and the report is
    [reports/stem.ext.md]. *)
Theorem X4_report_name_of_stem (d stem ext : string) :
  rfind "/" stem = -1 ->
  rfind "." ext = -1 ->
  rfind "/" ext = -1 ->
  ((exists c, In c (list_ascii_of_string stem) /\ c <> "."%char) ->
     output_path_of (d +:+ "/" +:+ stem +:+ "." +:+ ext) = "reports/" +:+ stem +:+ ".md") /\
  ((forall c, In c (list_ascii_of_string stem) -> c = "."%char) ->
     output_path_of (d +:+ "/" +:+ stem +:+ "." +:+ ext) =
       "reports/" +:+ stem +:+ "." +:+ ext +:+ ".md").
Proof.
  intros Hstem Hext Hsep.
  pose proof (output_path_of_stem d stem ext Hstem Hext Hsep) as Hout.
  pose proof (has_stem_app EmptyString stem (String extsep ext)) as Hscan.
  rewrite append_nil in Hscan. cbn [String.length] in Hscan.
  change ("." +:+ ext) with (String extsep ext).
  split.
  - intros Hsome. apply Hscan in Hsome. rewrite Hsome in Hout. exact Hout.
  - intros Hall.
    destruct (has_stem (String.length stem) (stem +:+ String extsep ext) 0) eqn:Hs.
    + destruct (proj1 Hscan eq_refl) as (c & Hin & Hc). elim Hc. apply Hall, Hin.
    + exact Hout.
Qed.

Lemma X4_witness :
  output_path_of ("source/web" +:+ "/" +:+ "app.min" +:+ "." +:+ "js") = "reports/app.min.md" /\
  output_path_of ("source" +:+ "/" +:+ "" +:+ "." +:+ "py") = "reports/.py.md".
Proof.
  destruct (X4_report_name_of_stem "source/web" "app.min" "js" eq_refl eq_refl eq_refl)
    as [H1 _].
  destruct (X4_report_name_of_stem "source" "" "py" eq_refl eq_refl eq_refl)
    as [_ H2].
  split.
  - apply H1. exists "a"%char. split; [now left | discriminate].
  - apply H2. intros c [].
Defined.

(** X5.  A [.py] file and a [.js] file with the same stem, in whatever
    directories under [source/], are both accepted and are given the
    same report [reports/stem.md]. *)
Theorem X5_extension_collision (d1 d2 stem : string) :
  rfind "/" stem = -1 ->
  (exists c, In c (list_ascii_of_string stem) /\ c <> "."%char) ->
  accepted ("source/" +:+ d1 +:+ "/" +:+ stem +:+ ".py") = true /\
  accepted ("source/" +:+ d2 +:+ "/" +:+ stem +:+ ".js") = true /\
  output_path_of ("source/" +:+ d1 +:+ "/" +:+ stem +:+ ".py") = "reports/" +:+ stem +:+ ".md" /\
  output_path_of ("source/" +:+ d2 +:+ "/" +:+ stem +:+ ".js") = "reports/" +:+ stem +:+ ".md".
Proof.
  intros Hstem Hsome.
  pose proof (has_stem_app EmptyString stem) as Hscan.
  assert (Hacc : forall d x, x = ".py" \/ x = ".js" ->
            accepted ("source/" +:+ d +:+ "/" +:+ stem +:+ x) = true).
  { intros d x Hx. apply accepted_iff. split; [eauto|].
    destruct Hx as [-> | ->]; [left | right];
      exists ("source/" +:+ d +:+ "/" +:+ stem); now rewrite !append_assoc. }
  assert (Hout : forall d ext, rfind extsep ext = -1 -> rfind sep ext = -1 ->
            output_path_of (("source/" +:+ d) +:+ "/" +:+ stem +:+ String extsep ext) =
              "reports/" +:+ stem +:+ ".md").
  { intros d ext He Hs.
    rewrite (output_path_of_stem ("source/" +:+ d) stem ext Hstem He Hs).
    specialize (Hscan (String extsep ext)). rewrite append_nil in Hscan.
    cbn [String.length] in Hscan. apply Hscan in Hsome. now rewrite Hsome. }
  split; [apply Hacc; now left|]. split; [apply Hacc; now right|].
  split.
  - rewrite <- (Hout d1 "py" eq_refl eq_refl). now rewrite !append_assoc.
  - rewrite <- (Hout d2 "js" eq_refl eq_refl). now rewrite !append_assoc.
Qed.

Lemma X5_witness :
  output_path_of ("source/" +:+ "api" +:+ "/" +:+ "app" +:+ ".py") = "reports/app.md" /\
  output_path_of ("source/" +:+ "web" +:+ "/" +:+ "app" +:+ ".js") = "reports/app.md".
Proof.
  destruct (X5_extension_collision "api" "web" "app" eq_refl) as (_ & _ & H1 & H2).
  - exists "a"%char. split; [now left | discriminate].
  - split; [exact H1 | exact H2].
Defined.

End PathExtras.

(** ** Further properties of the batch driver *)

Module BatchExtras.
Import Py OsPath PyText BatchDriver BatchSpec Stubs.
Import PathFacts OsPathFacts PyTextFacts BatchFacts BatchMore BatchLoopFacts.

(** X6.  The loop changes nothing outside [reports/]: a path that does
    not start with [reports/] holds after the loop what it held before,
    whatever fails; in particular no accepted source file is touched. *)
Theorem X6_nothing_outside_reports (E : env) (lines : list string) (st : state) (p : string) :
  startswith "reports/" p = false ->
  files (fst (main_loop E lines st)) !! p = files st !! p /\
  (forall line, accepted line = true ->
     files (fst (main_loop E lines st)) !! line = files st !! line).
Proof.
  intros Hp. split; [apply main_loop_outside_reports, Hp|].
  intros line Ha. apply main_loop_outside_reports, source_not_reports.
  unfold accepted in Ha. now apply andb_true_iff in Ha as [Hs _].
Qed.

Lemma X6_witness :
  files (fst (main_loop quoting_team ["source/app.py"; "source/widget.js"] checkout))
    !! "source/app.py" = Some "print(1)".
Proof.
  destruct (X6_nothing_outside_reports quoting_team ["source/app.py"; "source/widget.js"]
              checkout "source/app.py" eq_refl) as [H _].
  rewrite H. reflexivity.
Defined.

(** X9.  An accepted line whose file is missing or cannot be read costs
    no call of the team and changes no file: the iteration prints the
    announcement and the error and ends normally.  For a missing file the
    error is a FileNotFoundError. *)
Theorem X9_unreadable_artifact (E : env) (line : string) (st : state) :
  accepted line = true ->
  read_fault E line <> None \/ files st !! line = None ->
  exists e,
    iteration E line st =
      ({| files := files st;
          stdout := stdout st ++ ["Processing " +:+ line;
                                  "Error processing " +:+ line +:+ ": (" +:+ str e +:+ ")"];
          prompts := prompts st |}, inr tt) /\
    (read_fault E line = None -> exists msg, e = Exn "FileNotFoundError" msg).
Proof.
  intros Ha Hbad.
  assert (Hask : asked E (files st) line = None).
  { unfold asked. rewrite Ha. destruct (read_fault E line) as [e|]; [reflexivity|].
    destruct Hbad as [Hbad|Hmiss]; [contradiction | now rewrite Hmiss]. }
  destruct (iteration_unreadable E line st Ha Hask) as (e & Hit & Hmissing).
  exists e. split; [exact Hit|]. intros Hr.
  destruct Hbad as [Hbad|Hmiss]; [contradiction|]. apply Hmissing; assumption.
Qed.

Lemma X9_witness :
  exists e,
    iteration quoting_team "source/gone.py" checkout =
      ({| files := files checkout;
          stdout := ["Processing source/gone.py";
                     "Error processing source/gone.py: (" +:+ str e +:+ ")"];
          prompts := [] |}, inr tt).
Proof.
  destruct (X9_unreadable_artifact quoting_team "source/gone.py" checkout eq_refl
              (or_intror eq_refl)) as (e & H & _).
  exists e. exact H.
Defined.

(** X10.  When [outfile.write] raises after the report was opened (its
    text cannot be encoded, say), the error is caught and printed, and the
    report is left empty: what an earlier run had written there is lost. *)
Theorem X10_failed_write_truncates (E : env) (line contents : string) (st : state)
    (r : TeamRunResponse) (e : exn) :
  accepted line = true ->
  read_fault E line = None ->
  files st !! line = Some contents ->
  team_run E (prompts st) (make_prompt contents) = inr r ->
  open_w_fault E (output_path_of line) = None ->
  write_fault E (output_path_of line) = Some e ->
  iteration E line st =
    ({| files := <[output_path_of line := EmptyString]> (files st);
        stdout := stdout st ++ ["Processing " +:+ line;
                                "Error processing " +:+ line +:+ ": (" +:+ str e +:+ ")"];
        prompts := prompts st ++ [make_prompt contents] |}, inr tt) /\
  files (fst (iteration E line st)) !! output_path_of line = Some EmptyString.
Proof.
  intros Ha Hr Hf Ht Ho Hw.
  rewrite (iteration_write_fault E line contents st r e Ha Hr Hf Ht Ho Hw).
  split; [reflexivity|]. cbn. apply lookup_insert_eq.
Qed.

Lemma X10_witness :
  files (fst (iteration unencodable_report "source/app.py"
                {| files := <["reports/app.md" := "# Old report"]> (files checkout);
                   stdout := []; prompts := [] |})) !! "reports/app.md" = Some EmptyString.
Proof.
  refine (proj2 (X10_failed_write_truncates unencodable_report "source/app.py" "print(1)"
              {| files := <["reports/app.md" := "# Old report"]> (files checkout);
                 stdout := []; prompts := [] |}
              {| content := "# Report" +:+ make_prompt "print(1)" |}
              (Exn "UnicodeEncodeError"
                   "'utf-8' codec can't encode character: surrogates not allowed")
              _ _ _ _ _ _)); vm_compute; reflexivity.
Defined.

(** X11.  Two file texts give the same prompt only when they are the
    same text. *)
Theorem X11_make_prompt_injective (c1 c2 : string) :
  make_prompt c1 = make_prompt c2 -> c1 = c2.
Proof. apply make_prompt_inj. Qed.

Lemma X11_witness : "print(1)" = "print(1)".
Proof. exact (X11_make_prompt_injective "print(1)" "print(1)" eq_refl). Defined.

(** X13.  git's listing is read back as it was written: for paths
    without newline whose listing is ASCII and has no whitespace at its
    two ends, the lines of the listing followed by a newline are the
    paths. *)
Theorem X13_listing_round_trip (paths : list string) :
  paths <> [] ->
  Forall (fun p => rfind (ascii_of_nat 10) p = -1) paths ->
  is_ascii (String.concat nl paths) = true ->
  strip (String.concat nl paths) = String.concat nl paths ->
  changed_lines (String.concat nl paths +:+ nl) = paths.
Proof.
  intros Hne Hall _ Hstrip. unfold changed_lines.
  rewrite (strip_app_blank _ nl Hstrip eq_refl).
  apply split_concat; assumption.
Qed.

Lemma X13_witness :
  changed_lines (String.concat nl ["source/app.py"; "README.md"; "source/widget.js"] +:+ nl) =
    ["source/app.py"; "README.md"; "source/widget.js"].
Proof.
  apply X13_listing_round_trip.
  - discriminate.
  - repeat constructor.
  - reflexivity.
  - reflexivity.
Defined.

(** X14.  When git prints nothing, or whitespace only (no file changed,
    or git failed), the loop has one empty line to look at, which the
    filter rejects: nothing is read, asked, printed or written. *)
Theorem X14_blank_listing_does_nothing (E : env) (out : string) (st : state) :
  blank out = true ->
  changed_lines out = [EmptyString] /\
  main_loop E (changed_lines out) st = (st, inr tt).
Proof.
  intros Hb. unfold changed_lines. rewrite (strip_blank out Hb).
  split; reflexivity.
Qed.

Lemma X14_witness :
  main_loop failing_team (changed_lines nl) checkout = (checkout, inr tt).
Proof.
  destruct (X14_blank_listing_does_nothing failing_team nl checkout eq_refl) as [_ H].
  exact H.
Defined.

(** X15.  [split] loses nothing and leaves no separator behind: the
    pieces joined by the separator are the text, there is at least one
    piece, and no piece contains the separator; so no line the loop sees
    contains a newline. *)
Theorem X15_split_laws (c : ascii) (s : string) :
  String.concat (String c EmptyString) (split c s) = s /\
  split c s <> [] /\
  Forall (fun piece => rfind c piece = -1) (split c s).
Proof.
  split; [apply concat_split|]. split; [apply split_nonempty | apply split_pieces].
Qed.

End BatchExtras.

(** ** Further properties of the web service *)

Module WebExtras.
Import Py WebApp WebSpec WebStubs Base64 Base64Decode.
Import PathFacts OsPathFacts BatchLoopFacts Base64Facts Base64RoundTrip WebFacts WebMore.

(** X16.  Over the events of a team run, [generate] yields the content
    of every event in order, and ends the way the run ends: normally, or
    with the error that stopped the run. *)
Theorem X16_generate_forwards_events (events : list string) (fault : option exn) :
  generate (OfEvents events fault) = (events, fault).
Proof. unfold generate, iter. apply generate_items_events. Qed.

(** X17.  When [create_team] and [team.run] return and the token has
    no line break, the response has status 200, the output of the run as
    its streamed body and the session token in [X-Session-ID]; the team
    that ran carries that same token as its [session_id]. *)
Theorem X17_team_runs_under_returned_token (uuid4_str : nat -> string) (B : backend)
    (req : Request) (w : world) (h : option string) (team0 : Team) (output : iterable) :
  header_session_id req = inr h ->
  create_team B = inr team0 ->
  Uuid.header_safe (fst (resolve_session uuid4_str h w)) = true ->
  team_run B {| members := members team0;
                session_id := Some (fst (resolve_session uuid4_str h w)) |}
           (arg_input req) = inr output ->
  exists resp,
    ask_team uuid4_str B req w = (Returned resp, snd (resolve_session uuid4_str h w)) /\
    status resp = 200 /\
    body resp = Stream output /\
    session_header resp = Some (fst (resolve_session uuid4_str h w)).
Proof.
  intros Hh Hc _ Hr.
  rewrite (ask_team_success uuid4_str B req w h team0 output Hh Hc Hr).
  eexists. split; [reflexivity|]. split; [reflexivity|]. split; [reflexivity|].
  unfold session_header. cbn [headers]. apply lookup_singleton_eq.
Qed.

Lemma X17_witness :
  exists resp,
    ask_team unary streaming_backend resumed_request fresh_world = (Returned resp, fresh_world) /\
    body resp = Stream (OfEvents ["Hello"; " world"] None) /\
    session_header resp = Some "abc".
Proof.
  destruct (X17_team_runs_under_returned_token unary streaming_backend resumed_request
              fresh_world (Some "abc")
              {| members := ["security"; "debugging"; "optimization"]; session_id := None |}
              (OfEvents ["Hello"; " world"] None) eq_refl eq_refl eq_refl eq_refl)
    as (resp & H1 & _ & H3 & H4).
  exists resp. split; [exact H1|]. split; [exact H3 | exact H4].
Defined.

(** X18.  An error that stops the team's stream after [team.run] has
    returned is not seen by the [try] block: the handler returns the
    normal response, and the client receives the chunks produced so far
    and then the error, not the apology. *)
Theorem X18_stream_error_escapes_handler (uuid4_str : nat -> string) (B : backend)
    (req : Request) (w : world) (h : option string) (team0 : Team)
    (events : list string) (e : exn) :
  header_session_id req = inr h ->
  create_team B = inr team0 ->
  team_run B {| members := members team0;
                session_id := Some (fst (resolve_session uuid4_str h w)) |}
           (arg_input req) = inr (OfEvents events (Some e)) ->
  exists resp w',
    ask_team uuid4_str B req w = (Returned resp, w') /\
    body resp = Stream (OfEvents events (Some e)) /\
    consume (body resp) = (events, Some e).
Proof.
  intros Hh Hc Hr.
  rewrite (ask_team_success uuid4_str B req w h team0 _ Hh Hc Hr).
  eexists _, _. split; [reflexivity|]. split; [reflexivity|].
  cbn [body consume]. unfold generate, iter. apply generate_items_events.
Qed.

Lemma X18_witness :
  exists resp w',
    ask_team unary breaking_backend anonymous_request fresh_world = (Returned resp, w') /\
    consume (body resp) = (["Hello"], Some (Exn "ConnectionError" "connection lost")).
Proof.
  destruct (X18_stream_error_escapes_handler unary breaking_backend anonymous_request
              fresh_world None
              {| members := ["security"; "debugging"; "optimization"]; session_id := None |}
              ["Hello"] (Exn "ConnectionError" "connection lost") eq_refl eq_refl eq_refl)
    as (resp & w' & H1 & _ & H3).
  exists resp, w'. split; [exact H1 | exact H3].
Defined.

(** X19.  Every response [ask_team] returns has status 200, also the
    degraded one, and carries [X-Session-ID]; a request draws at most one
    token from the uuid source. *)
Theorem X19_always_status_200 (uuid4_str : nat -> string) (B : backend) (req : Request)
    (w w' : world) (resp : Response) :
  ask_team uuid4_str B req w = (Returned resp, w') ->
  status resp = 200 /\
  (exists sid, session_header resp = Some sid) /\
  (minted w <= minted w' <= S (minted w))%nat.
Proof.
  intros H. destruct (ask_team_shape uuid4_str B req w w' resp H) as (Hs & (sid & Hh) & Hm).
  split; [exact Hs|]. split; [|exact Hm].
  exists sid. unfold session_header. rewrite Hh. apply lookup_singleton_eq.
Qed.

Lemma X19_witness :
  exists resp w',
    ask_team unary failing_backend anonymous_request fresh_world = (Returned resp, w') /\
    status resp = 200 /\ minted w' = 1%nat.
Proof.
  eexists _, _. split; [reflexivity|].
  destruct (X19_always_status_200 unary failing_backend anonymous_request fresh_world
              _ _ eq_refl) as (H1 & _ & _).
  split; [exact H1 | reflexivity].
Defined.

(** X20.  Whether the image is there or not, [get_image] answers with
    status 200 and no header of its own, the image is absent afterwards,
    and every other file is as it was. *)
Theorem X20_get_image_frame (IMAGE_PATH : string) (fs : gmap string string) :
  status (fst (get_image IMAGE_PATH fs)) = 200 /\
  headers (fst (get_image IMAGE_PATH fs)) = ∅ /\
  snd (get_image IMAGE_PATH fs) !! IMAGE_PATH = None /\
  (forall p, p <> IMAGE_PATH -> snd (get_image IMAGE_PATH fs) !! p = fs !! p).
Proof.
  destruct (get_image_effect IMAGE_PATH fs) as (-> & Hs & Hh).
  split; [exact Hs|]. split; [exact Hh|].
  split; [apply lookup_delete_eq|]. intros p Hp. now apply lookup_delete_ne.
Qed.

(** X21.  The body is empty exactly when there was no image file: an
    image file of zero bytes still gives the prefix of the data URI. *)
Theorem X21_empty_body_iff_absent (IMAGE_PATH : string) (fs : gmap string string) :
  body (fst (get_image IMAGE_PATH fs)) = Text EmptyString <-> fs !! IMAGE_PATH = None.
Proof.
  rewrite get_image_body. destruct (fs !! IMAGE_PATH) as [image_bytes|].
  - split; [|discriminate]. rewrite append_cons. discriminate.
  - split; reflexivity.
Qed.

(** X22.  The data URI determines the image: two image files give the
    same body only when they hold the same bytes. *)
Theorem X22_data_uri_determines_bytes (IMAGE_PATH : string) (fs1 fs2 : gmap string string)
    (bytes1 bytes2 : string) :
  fs1 !! IMAGE_PATH = Some bytes1 ->
  fs2 !! IMAGE_PATH = Some bytes2 ->
  body (fst (get_image IMAGE_PATH fs1)) = body (fst (get_image IMAGE_PATH fs2)) ->
  bytes1 = bytes2.
Proof.
  intros H1 H2. rewrite !get_image_body, H1, H2. intros [= Heq].
  apply append_cancel_l in Heq. apply b64encode_inj, Heq.
Qed.

Lemma X22_witness : "Man" = "Man".
Proof.
  exact (X22_data_uri_determines_bytes "static/image.png" image_present image_present
           "Man" "Man" eq_refl eq_refl eq_refl).
Defined.

(** X23.  The base64 text has four characters for every started group
    of three bytes, so the body of an image of [n] bytes has
    [22 + 4 * ceil(n / 3)] characters. *)
Theorem X23_data_uri_length (IMAGE_PATH : string) (fs : gmap string string)
    (image_bytes : string) :
  fs !! IMAGE_PATH = Some image_bytes ->
  exists text,
    body (fst (get_image IMAGE_PATH fs)) = Text text /\
    String.length text = (22 + 4 * ((String.length image_bytes + 2) / 3))%nat.
Proof.
  intros Hfs. rewrite get_image_body, Hfs. eexists. split; [reflexivity|].
  rewrite length_append, length_b64encode. reflexivity.
Qed.

Lemma X23_witness :
  exists text,
    body (fst (get_image "static/image.png" image_present)) = Text text /\
    String.length text = 26%nat.
Proof.
  exact (X23_data_uri_length "static/image.png" image_present "Man" eq_refl).
Defined.

End WebExtras.

(** ** Facts about the loop on a console that can fail *)

Module ConsoleFacts.
Import Py OsPath PyText BatchDriver BatchSpec Console.
Import PathFacts OsPathFacts BatchFacts BatchMore BatchLoopFacts.

Ltac run_on :=
  unfold try_body_on, bind, print_on, read_text_on, run, open_w, write, print, raise, ret;
  repeat first
    [ progress cbn [fst snd files stdout prompts]
    | match goal with
      | |- context [match ?x with _ => _ end] =>
          lazymatch x with
          | context [match _ with _ => _ end] => fail
          | _ => destruct x eqn:?
          end
      end ].

(** On the runtime [plain] the loop is the loop of [BatchDriver]. *)
Lemma try_body_plain (E : env) (line : string) (st : state) :
  try_body_on plain E line st = try_body E line st.
Proof. reflexivity. Qed.

Lemma iteration_plain (E : env) (line : string) (st : state) :
  iteration_on plain E line st = iteration E line st.
Proof. reflexivity. Qed.

Lemma main_loop_plain (E : env) (lines : list string) (st : state) :
  main_loop_on plain E lines st = main_loop E lines st.
Proof.
  revert st. induction lines as [|line rest IH]; intros st; [reflexivity|].
  cbn [main_loop_on main_loop]. unfold bind. rewrite iteration_plain.
  destruct (iteration E line st) as [st' [e|[]]]; [reflexivity | apply IH].
Qed.

Lemma main_loop_on_cons (R : runtime) (E : env) (line : string) (rest : list string)
    (st : state) :
  main_loop_on R E (line :: rest) st =
    match iteration_on R E line st with
    | (st', inr _) => main_loop_on R E rest st'
    | (st', inl e) => (st', inl e)
    end.
Proof. reflexivity. Qed.

(** What the [try] block leaves behind. *)
Lemma try_body_on_stdout (R : runtime) (E : env) (line : string) (st : state) :
  stdout (fst (try_body_on R E line st)) =
    match print_fault R (stdout st) ("Processing " +:+ line) with
    | Some _ => stdout st
    | None => stdout st ++ ["Processing " +:+ line]
    end.
Proof. run_on; reflexivity. Qed.

Lemma try_body_on_frame (R : runtime) (E : env) (line p : string) (st : state) :
  p <> output_path_of line ->
  files (fst (try_body_on R E line st)) !! p = files st !! p.
Proof.
  intros Hp. run_on; simplify_eq; cbn; rewrite ?lookup_insert_ne by congruence; reflexivity.
Qed.

Lemma try_body_on_prompts (R : runtime) (E : env) (line : string) (st : state) :
  print_fault R (stdout st) ("Processing " +:+ line) = None ->
  accepted line = true ->
  prompts (fst (try_body_on R E line st)) =
    prompts st ++ option_list (asked E (files st) line).
Proof.
  intros Hp Ha. unfold asked. rewrite Ha.
  unfold try_body_on, bind, print_on. rewrite Hp.
  unfold read_text_on, run, open_w, write, print, raise, ret.
  repeat first
    [ progress cbn [fst snd files stdout prompts]
    | match goal with
      | |- context [match ?x with _ => _ end] =>
          lazymatch x with
          | context [match _ with _ => _ end] => fail
          | _ => destruct x eqn:?
          end
      end ]; cbn; rewrite ?app_nil_r; reflexivity.
Qed.

(** How one iteration ends: the line is filtered out; or the [try] block
    ends normally; or it raises and the error line is printed; or it
    raises and the print of the error line raises as well, and that
    exception leaves the iteration. *)
Lemma iteration_on_outcome (R : runtime) (E : env) (line : string) (st : state) :
  (accepted line = false /\ iteration_on R E line st = (st, inr tt)) \/
  (accepted line = true /\ snd (try_body_on R E line st) = inr tt /\
     iteration_on R E line st = try_body_on R E line st) \/
  (accepted line = true /\ exists e,
     snd (try_body_on R E line st) = inl e /\
     print_fault R (stdout (fst (try_body_on R E line st))) (error_line line e) = None /\
     iteration_on R E line st =
       ({| files := files (fst (try_body_on R E line st));
           stdout := stdout (fst (try_body_on R E line st)) ++ [error_line line e];
           prompts := prompts (fst (try_body_on R E line st)) |}, inr tt)) \/
  (accepted line = true /\ exists e e2,
     snd (try_body_on R E line st) = inl e /\
     print_fault R (stdout (fst (try_body_on R E line st))) (error_line line e) = Some e2 /\
     iteration_on R E line st = (fst (try_body_on R E line st), inl e2)).
Proof.
  unfold iteration_on. destruct (accepted line); [|left; split; reflexivity].
  right. unfold try_except.
  destruct (try_body_on R E line st) as [st' [e|[]]]; cbn [fst snd].
  - right. unfold handler_on, print_on.
    destruct (print_fault R (stdout st') (error_line line e)) as [e2|] eqn:Hp.
    + right. split; [reflexivity|]. exists e, e2. auto.
    + left. split; [reflexivity|]. exists e. auto.
  - left. auto.
Qed.

Lemma iteration_on_frame (R : runtime) (E : env) (line p : string) (st : state) :
  startswith "reports/" p = false ->
  files (fst (iteration_on R E line st)) !! p = files st !! p.
Proof.
  intros Hp.
  assert (Hne : p <> output_path_of line).
  { intros ->. rewrite output_path_in_reports in Hp. discriminate. }
  pose proof (try_body_on_frame R E line p st Hne) as Hf.
  destruct (iteration_on_outcome R E line st)
    as [[_ ->]|[(_ & _ & ->)|[(_ & e & _ & _ & ->)|(_ & e & e2 & _ & _ & ->)]]];
    cbn [fst files]; auto.
Qed.


Lemma iteration_on_prompts (R : runtime) (E : env) (line : string) (st : state) :
  announcements_print R ->
  prompts (fst (iteration_on R E line st)) =
    prompts st ++ option_list (asked E (files st) line).
Proof.
  intros Hann.
  destruct (iteration_on_outcome R E line st)
    as [[Ha ->]|[(Ha & _ & ->)|[(Ha & e & _ & _ & ->)|(Ha & e & e2 & _ & _ & ->)]]];
    cbn [fst prompts];
    try (apply try_body_on_prompts; [apply Hann | exact Ha]).
  unfold asked. rewrite Ha. cbn. now rewrite app_nil_r.
Qed.

Lemma error_line_no_announcement (line : string) (e : exn) :
  announcement (error_line line e) = false.
Proof. reflexivity. Qed.

Lemma iteration_on_announces (R : runtime) (E : env) (line : string) (st : state) :
  announcements_print R ->
  exists printed,
    stdout (fst (iteration_on R E line st)) = stdout st ++ printed /\
    List.filter announcement printed =
      if accepted line then ["Processing " +:+ line] else [].
Proof.
  intros Hann.
  assert (Hp : announcement ("Processing " +:+ line) = true)
    by (apply startswith_iff; eauto).
  pose proof (try_body_on_stdout R E line st) as Hs.
  rewrite (Hann (stdout st) line) in Hs.
  destruct (iteration_on_outcome R E line st)
    as [[Ha ->]|[(Ha & _ & ->)|[(Ha & e & _ & _ & ->)|(Ha & e & e2 & _ & _ & ->)]]];
    rewrite Ha; cbn [fst stdout].
  - exists []. split; [now rewrite app_nil_r | reflexivity].
  - exists ["Processing " +:+ line]. split; [exact Hs|]. cbn [List.filter]. now rewrite Hp.
  - exists ["Processing " +:+ line; error_line line e].
    split; [now rewrite Hs, <- app_assoc|].
    cbn [List.filter]. now rewrite Hp, error_line_no_announcement.
  - exists ["Processing " +:+ line]. split; [exact Hs|]. cbn [List.filter]. now rewrite Hp.
Qed.

(** The lines the loop got through: all of them when it ends normally,
    those up to the one whose error line could not be printed when it is
    left by an exception. *)
Lemma main_loop_on_progress (R : runtime) (E : env) (lines : list string) (st : state) :
  announcements_print R ->
  exists done rest printed,
    lines = done ++ rest /\
    (snd (main_loop_on R E lines st) = inr tt -> rest = []) /\
    prompts (fst (main_loop_on R E lines st)) =
      prompts st ++ omap (asked E (files st)) done /\
    stdout (fst (main_loop_on R E lines st)) = stdout st ++ printed /\
    List.filter announcement printed =
      map (fun line => "Processing " +:+ line) (List.filter accepted done).
Proof.
  intros Hann. revert st. induction lines as [|line rest IH]; intros st.
  - exists [], [], []. cbn. rewrite !app_nil_r. auto.
  - rewrite main_loop_on_cons.
    pose proof (iteration_on_prompts R E line st Hann) as Hpr.
    destruct (iteration_on_announces R E line st Hann) as (x1 & Hx1 & Fx1).
    pose proof (fun p Hp => iteration_on_frame R E line p st Hp) as Hfr.
    destruct (iteration_on R E line st) as [st' [e|[]]]; cbn [fst snd] in *.
    + exists [line], rest, x1. split; [reflexivity|]. split; [discriminate|].
      split; [|split; [exact Hx1|]].
      * cbn [omap list_omap]. rewrite Hpr.
        destruct (asked E (files st) line); reflexivity.
      * rewrite Fx1. cbn [List.filter]. destruct (accepted line); reflexivity.
    + destruct (IH st') as (done & rest' & x2 & Hl & Hend & Hp2 & Hs2 & F2).
      exists (line :: done), rest', (x1 ++ x2).
      split; [now rewrite Hl|]. split; [exact Hend|].
      split; [|split].
      * rewrite Hp2, Hpr, <- app_assoc. f_equal.
        assert (Hsame : omap (asked E (files st')) done = omap (asked E (files st)) done).
        { clear -Hfr. induction done as [|l done IHd]; [reflexivity|].
          cbn [omap list_omap]. rewrite IHd.
          now rewrite (asked_agree E (files st') (files st) l Hfr). }
        rewrite Hsame. cbn [omap list_omap].
        destruct (asked E (files st) line); reflexivity.
      * now rewrite Hs2, Hx1, <- app_assoc.
      * rewrite List.filter_app, Fx1, F2. cbn [List.filter].
        destruct (accepted line); reflexivity.
Qed.

(** An exception leaves the loop only from the print of an error line. *)
Lemma main_loop_on_abort (R : runtime) (E : env) (lines : list string) (st : state)
    (e : exn) :
  snd (main_loop_on R E lines st) = inl e ->
  exists line cause printed,
    In line lines /\ accepted line = true /\
    print_fault R printed (error_line line cause) = Some e.
Proof.
  revert st. induction lines as [|line rest IH]; intros st; [discriminate|].
  rewrite main_loop_on_cons.
  destruct (iteration_on_outcome R E line st)
    as [[Ha ->]|[(Ha & Hok & Hit)|[(Ha & c & _ & _ & ->)|(Ha & c & e2 & _ & Hp & ->)]]].
  - intros H. destruct (IH _ H) as (l & c & h & Hin & Hl). exists l, c, h. split; [now right|exact Hl].
  - rewrite Hit. destruct (try_body_on R E line st) as [st' [x|[]]]; [discriminate Hok|].
    intros H. destruct (IH _ H) as (l & c & h & Hin & Hl). exists l, c, h. split; [now right|exact Hl].
  - intros H. destruct (IH _ H) as (l & c0 & h & Hin & Hl). exists l, c0, h. split; [now right|exact Hl].
  - cbn [snd]. intros [= <-].
    exists line, c, (stdout (fst (try_body_on R E line st))).
    split; [now left|]. split; [exact Ha | exact Hp].
Qed.


Lemma main_loop_on_returns (R : runtime) (E : env) (lines : list string) (st : state) :
  errors_print R -> snd (main_loop_on R E lines st) = inr tt.
Proof.
  intros Herr.
  destruct (snd (main_loop_on R E lines st)) as [e|[]] eqn:Hres; [|reflexivity].
  destruct (main_loop_on_abort R E lines st e Hres) as (l & c & h & _ & _ & Hp).
  rewrite Herr in Hp. discriminate.
Qed.





End ConsoleFacts.

(** ** Failure isolation in the batch driver *)

Module ConsoleClaims.
Import Py OsPath PyText BatchDriver BatchSpec Console Stubs.
Import PathFacts OsPathFacts BatchFacts BatchMore BatchLoopFacts ConsoleFacts.




End ConsoleClaims.

(** ** Further properties of the loop on a console that can fail *)

Module ConsoleExtras.
Import Py OsPath PyText BatchDriver BatchSpec Console Stubs.
Import PathFacts OsPathFacts BatchFacts BatchMore BatchLoopFacts ConsoleFacts.



(** X8.  When the announcements can be printed, the texts the loop
    prints extend what was printed before, and the calls of [print] whose
    text starts with [Processing] are those of the accepted lines the loop
    got through, one each and in order. *)
Theorem X8_announcements_in_order (R : runtime) (E : env) (lines : list string)
    (st : state) :
  announcements_print R ->
  exists done rest printed,
    lines = done ++ rest /\
    (snd (main_loop_on R E lines st) = inr tt -> rest = []) /\
    stdout (fst (main_loop_on R E lines st)) = stdout st ++ printed /\
    List.filter announcement printed =
      map (fun line => "Processing " +:+ line) (List.filter accepted done).
Proof.
  intros Hann.
  destruct (main_loop_on_progress R E lines st Hann)
    as (done & rest & printed & Hl & Hend & _ & Hs & Hf).
  exists done, rest, printed. auto.
Qed.

Lemma X8_witness :
  exists done rest printed,
    ["source/app.py"; "README.md"; "source/widget.js"] = done ++ rest /\
    stdout (fst (main_loop_on plain failing_team
                   ["source/app.py"; "README.md"; "source/widget.js"] checkout)) =
      stdout checkout ++ printed /\
    List.filter announcement printed =
      map (fun line => "Processing " +:+ line) (List.filter accepted done).
Proof.
  destruct (X8_announcements_in_order plain failing_team
              ["source/app.py"; "README.md"; "source/widget.js"] checkout (fun _ _ => eq_refl))
    as (done & rest & printed & H1 & _ & H3 & H4).
  exists done, rest, printed. auto.
Defined.

(** X12.  An exception leaves the loop only from the [print] of the
    [except] branch: it is the error of printing the error line of an
    accepted line.  When every error line can be printed, no exception
    leaves the loop. *)
Theorem X12_only_the_error_print_aborts (R : runtime) (E : env) (lines : list string)
    (st : state) :
  (forall e, snd (main_loop_on R E lines st) = inl e ->
     exists line cause printed,
       In line lines /\ accepted line = true /\
       print_fault R printed (error_line line cause) = Some e) /\
  (errors_print R -> snd (main_loop_on R E lines st) = inr tt).
Proof.
  split; [intros e; apply main_loop_on_abort | apply main_loop_on_returns].
Qed.

Lemma X12_witness :
  exists line cause printed,
    In line ["source/app.py"; "source/widget.js"] /\ accepted line = true /\
    print_fault ascii_console printed (error_line line cause) =
      Some (Exn "UnicodeEncodeError" "'ascii' codec can't encode character").
Proof.
  exact (proj1 (X12_only_the_error_print_aborts ascii_console accented_team
                  ["source/app.py"; "source/widget.js"] checkout) _ eq_refl).
Defined.

End ConsoleExtras.

(** ** Facts about the session token *)

Module UuidFacts.
Import Py Uuid PathFacts OsPathFacts BatchLoopFacts.






















End UuidFacts.

(** ** The session token of the web service *)

Module SessionClaims.
Import Py WebApp Uuid WebStubs PathFacts WebFacts UuidFacts.




End SessionClaims.
